(** * Reddit lead tracker: the collection and qualification pipeline

    A shallow embedding of [track_leads_function] and of the search
    button handler of [reddit_lead_tracker_ui.py], with the properties of
    the pipeline stated and proved over it.

    Conventions of the embedding:
    - a Python [int] is a [Z];
    - a Python [str] is a [string] whose characters are code points below
      256, so that [str.lower] and [str.isdigit] are the tables of that
      range; [int] refuses a text of more than 4300 digits, as the
      interpreter does by default; beyond that range [str.lower] is no
      longer a table of characters, and nothing below uses of it more
      than that it is a function of the text;
    - an attribute of a duck-typed object that may be absent is an
      [option]: reading [None] raises;
    - the mutable objects of the function (the two result lists, the
      counters, the local [post_info] dictionary and the local list of
      fetched posts) are the fields of one state, threaded through a monad
      in which a raised exception keeps the state reached so far;
    - the content API, the scoring agent and the local-time formatting of
      a timestamp are an environment the pipeline is parameterised by;
      every call to the outside is recorded in a trace, with the warnings
      and errors shown to the user;
    - the construction of the API client and of the agent is taken to
      succeed, and the progress bar and status line are left out. *)

From Stdlib Require Import ZArith List String Ascii Bool Arith Lia DecimalString.
From Stdlib Require Import Permutation Sorted.
Import ListNotations.

Local Open Scope string_scope.
Local Open Scope Z_scope.

(** ** Operations of Python strings and lists *)

Module Py.

(** [c.lower()] on one character: [A-Z] and the capital letters of
    U+00C0..U+00DE (the multiplication sign U+00D7 apart) move down by 32. *)
Definition lower_char (c : ascii) : ascii :=
  let n := nat_of_ascii c in
  if ((65 <=? n) && (n <=? 90))%nat then ascii_of_nat (n + 32)
  else if ((192 <=? n) && (n <=? 222) && negb (n =? 215))%nat
       then ascii_of_nat (n + 32)
  else c.

(** [s.lower()] *)
Fixpoint lower (s : string) : string :=
  match s with
  | EmptyString => EmptyString
  | String c s' => String (lower_char c) (lower s')
  end.

(** [s.startswith(sub)] *)
Fixpoint startswith (sub s : string) : bool :=
  match sub, s with
  | EmptyString, _ => true
  | String _ _, EmptyString => false
  | String a sub', String b s' => Ascii.eqb a b && startswith sub' s'
  end.

(** [sub in s] *)
Fixpoint contains (sub s : string) : bool :=
  startswith sub s ||
  match s with
  | EmptyString => false
  | String _ s' => contains sub s'
  end.

(** [s.split(sep)] for a separator of one character: never empty. *)
Fixpoint split (sep : ascii) (s : string) : list string :=
  match s with
  | EmptyString => [EmptyString]
  | String c s' =>
      if Ascii.eqb c sep then EmptyString :: split sep s'
      else match split sep s' with
           | [] => [String c EmptyString]
           | l :: ls => String c l :: ls
           end
  end.

(** [c in s] for one character *)
Fixpoint has_char (c : ascii) (s : string) : bool :=
  match s with
  | EmptyString => false
  | String a s' => Ascii.eqb a c || has_char c s'
  end.

(** [str.isdigit] on one character: the decimal digits and the
    superscripts U+00B2, U+00B3 and U+00B9. *)
Definition isdigit (c : ascii) : bool :=
  let n := nat_of_ascii c in
  (((48 <=? n) && (n <=? 57)) || (n =? 178) || (n =? 179) || (n =? 185))%nat.

Definition isdecimal (c : ascii) : bool :=
  let n := nat_of_ascii c in ((48 <=? n) && (n <=? 57))%nat.

(** [''.join(filter(pred, s))] *)
Fixpoint filter_join (pred : ascii -> bool) (s : string) : string :=
  match s with
  | EmptyString => EmptyString
  | String c s' =>
      if pred c then String c (filter_join pred s') else filter_join pred s'
  end.

Fixpoint int_acc (acc : Z) (s : string) : option Z :=
  match s with
  | EmptyString => Some acc
  | String c s' =>
      if isdecimal c
      then int_acc (10 * acc + Z.of_nat (nat_of_ascii c - 48)) s'
      else None
  end.

(** The most digits [int] converts ([sys.int_info.default_max_str_digits]). *)
Definition max_str_digits : nat := 4300.

(** [int(s)] for a string without sign, blanks or underscores: [None] is
    the [ValueError] of an empty string, of a character that is not a
    decimal digit, or of more than [max_str_digits] characters. *)
Definition int (s : string) : option Z :=
  match s with
  | EmptyString => None
  | _ =>
      if (String.length s <=? max_str_digits)%nat then int_acc 0 s else None
  end.

(** [s[:n]] for a literal [n >= 0] *)
Fixpoint str_take (n : nat) (s : string) : string :=
  match n, s with
  | O, _ => EmptyString
  | _, EmptyString => EmptyString
  | S n', String c s' => String c (str_take n' s')
  end.

(** [l[:n]]: a negative bound counts from the end. *)
Definition slice_to {A : Type} (l : list A) (n : Z) : list A :=
  if 0 <=? n then firstn (Z.to_nat n) l
  else firstn (List.length l - Z.to_nat (- n)) l.

(** [len(l)] *)
Definition len {A : Type} (l : list A) : Z := Z.of_nat (List.length l).

(** [x in ids] for a set of strings *)
Definition mem (x : string) (ids : list string) : bool :=
  existsb (String.eqb x) ids.

End Py.

(** ** Data model *)

(** A submission as the content API hands it over. [title], [permalink],
    [author], [created_utc], [score] and [num_comments] are read without a
    guard, so an absent one raises; [selftext] is read behind [hasattr];
    the value of [author] is [None] for a deleted account, and the value
    of [selftext], when present, is a text or [None]. *)
Module Post.
Record t := mk {
  id : string;
  title : option string;
  selftext : option (option string);
  author : option (option string);
  permalink : option string;
  created_utc : option Z;
  score : option Z;
  num_comments : option Z
}.
End Post.

(** The [post_info] dictionary; the keys ['ai_score'] and ['ai_analysis']
    exist only once they have been assigned. *)
Module PostInfo.
Record t := mk {
  title : string;
  url : string;
  author : string;
  subreddit : string;
  date : string;
  score : Z;
  num_comments : Z;
  content_preview : string;
  matched_keywords : bool;
  ai_analyzed : bool;
  is_lead : bool;
  ai_score : option Z;
  ai_analysis : option string
}.

Definition set_matched_keywords (b : bool) (p : t) : t :=
  mk (title p) (url p) (author p) (subreddit p) (date p) (score p)
     (num_comments p) (content_preview p) b (ai_analyzed p) (is_lead p)
     (ai_score p) (ai_analysis p).

Definition set_ai_analyzed (b : bool) (p : t) : t :=
  mk (title p) (url p) (author p) (subreddit p) (date p) (score p)
     (num_comments p) (content_preview p) (matched_keywords p) b (is_lead p)
     (ai_score p) (ai_analysis p).

Definition set_is_lead (b : bool) (p : t) : t :=
  mk (title p) (url p) (author p) (subreddit p) (date p) (score p)
     (num_comments p) (content_preview p) (matched_keywords p)
     (ai_analyzed p) b (ai_score p) (ai_analysis p).

Definition set_ai_score (n : Z) (p : t) : t :=
  mk (title p) (url p) (author p) (subreddit p) (date p) (score p)
     (num_comments p) (content_preview p) (matched_keywords p)
     (ai_analyzed p) (is_lead p) (Some n) (ai_analysis p).

Definition set_ai_analysis (a : string) (p : t) : t :=
  mk (title p) (url p) (author p) (subreddit p) (date p) (score p)
     (num_comments p) (content_preview p) (matched_keywords p)
     (ai_analyzed p) (is_lead p) (ai_score p) (Some a).
End PostInfo.

(** The [lead_data] dictionary. *)
Module Lead.
Record t := mk {
  username : string;
  post_title : string;
  post_url : string;
  post_content : string;
  subreddit : string;
  relevance_score : Z;
  identified_needs : list string;
  post_date : string;
  ai_analysis : string
}.
End Lead.

(** The [stats] dictionary. *)
Record Stats := mkStats {
  total_posts : Z;
  posts_analyzed : Z;
  leads_found : Z
}.

(** ** The outside world *)

Inductive Ranking := New | Top | Hot.

(** What [lead_tracker_agent.run] does: raise, or return a response whose
    content is absent ([None]) or a text. *)
Inductive AgentResult :=
| AgentRaises
| AgentResponse (content : option string).

Inductive Warning :=
| WarnListing (r : Ranking) (subreddit : string)
| WarnSubreddit (subreddit : string).

(** The three messages of [st.error] in the input validation. *)
Inductive UiError := ErrCredentials | ErrNoSubreddit | ErrNoKeyword.

(** Calls to the outside and reports to the user, in the order made. *)
Inductive Event :=
| EvListing (r : Ranking) (subreddit : string) (limit : Z)
| EvAgentRun (prompt : string)
| EvWarning (w : Warning)
| EvError (e : UiError).

Definition is_network (e : Event) : bool :=
  match e with
  | EvListing _ _ _ | EvAgentRun _ => true
  | EvWarning _ | EvError _ => false
  end.

(** The environment. The first argument of an oracle is the number of
    events so far, so that the same request may be answered differently
    at different moments of a run.
    - [open_subreddit]: whether obtaining the subreddit handle succeeds;
    - [listing r name limit]: the posts of [subreddit_obj.new/top/hot]
      ([None] when the query raises);
    - [agent_run prompt]: the scoring agent;
    - [strftime_date t]: [datetime.fromtimestamp(t).strftime("%Y-%m-%d")]
      in the local time zone ([None] when [t] is out of range). *)
Record Env := mkEnv {
  open_subreddit : nat -> string -> bool;
  listing : nat -> Ranking -> string -> Z -> option (list Post.t);
  agent_run : nat -> string -> AgentResult;
  strftime_date : Z -> option string
}.

(** ** State and exceptions *)

Record St := mkSt {
  all_leads : list Lead.t;
  all_posts_explored : list PostInfo.t;
  stats : Stats;
  all_posts_from_subreddit : list Post.t;
  post_info : option PostInfo.t;
  events : list Event
}.

Inductive Res (A : Type) :=
| Val (a : A)
| Exc.
Arguments Val {A} a.
Arguments Exc {A}.

(** A computation: the state it reaches is kept when it raises. *)
Definition M (A : Type) : Type := St -> Res A * St.

Definition ret {A} (a : A) : M A := fun s => (Val a, s).

Definition bind {A B} (c : M A) (k : A -> M B) : M B :=
  fun s => match c s with
           | (Val a, s') => k a s'
           | (Exc, s') => (Exc, s')
           end.

Definition raise {A} : M A := fun s => (Exc, s).

(** [try: c  except Exception: h] *)
Definition try_except (c h : M unit) : M unit :=
  fun s => match c s with
           | (Val a, s') => (Val a, s')
           | (Exc, s') => h s'
           end.

Declare Scope py_scope.
Delimit Scope py_scope with py.
Notation "x <- c ;; k" := (bind c (fun x => k))
  (at level 61, c at next level, right associativity) : py_scope.
Notation "c ;; k" := (bind c (fun _ => k))
  (at level 61, right associativity) : py_scope.
Local Open Scope py_scope.

(** Reading an attribute that may be absent. *)
Definition attr {A} (o : option A) : M A :=
  match o with
  | Some a => ret a
  | None => raise
  end.

Definition get_st : M St := fun s => (Val s, s).

Definition log (e : Event) : M unit :=
  fun s => (Val tt,
            mkSt (all_leads s) (all_posts_explored s) (stats s)
                 (all_posts_from_subreddit s) (post_info s) (events s ++ [e])).

Definition set_stats (f : Stats -> Stats) : M unit :=
  fun s => (Val tt,
            mkSt (all_leads s) (all_posts_explored s) (f (stats s))
                 (all_posts_from_subreddit s) (post_info s) (events s)).

(** [all_leads.append(lead_data)] *)
Definition append_lead (l : Lead.t) : M unit :=
  fun s => (Val tt,
            mkSt (all_leads s ++ [l]) (all_posts_explored s) (stats s)
                 (all_posts_from_subreddit s) (post_info s) (events s)).

(** [all_posts_explored.append(post_info)] *)
Definition append_explored : M unit :=
  fun s => match post_info s with
           | Some p =>
               (Val tt,
                mkSt (all_leads s) (all_posts_explored s ++ [p]) (stats s)
                     (all_posts_from_subreddit s) (post_info s) (events s))
           | None => (Exc, s)
           end.

(** [post_info = {...}] *)
Definition set_post_info (p : PostInfo.t) : M unit :=
  fun s => (Val tt,
            mkSt (all_leads s) (all_posts_explored s) (stats s)
                 (all_posts_from_subreddit s) (Some p) (events s)).

(** [post_info[key] = value] *)
Definition update_post_info (f : PostInfo.t -> PostInfo.t) : M unit :=
  fun s => match post_info s with
           | Some p =>
               (Val tt,
                mkSt (all_leads s) (all_posts_explored s) (stats s)
                     (all_posts_from_subreddit s) (Some (f p)) (events s))
           | None => (Exc, s)
           end.

(** [all_posts_from_subreddit = []] *)
Definition reset_posts : M unit :=
  fun s => (Val tt,
            mkSt (all_leads s) (all_posts_explored s) (stats s)
                 [] (post_info s) (events s)).

(** [all_posts_from_subreddit.extend(ps)] *)
Definition extend_posts (ps : list Post.t) : M unit :=
  fun s => (Val tt,
            mkSt (all_leads s) (all_posts_explored s) (stats s)
                 (all_posts_from_subreddit s ++ ps) (post_info s) (events s)).

Definition get_posts : M (list Post.t) :=
  fun s => (Val (all_posts_from_subreddit s), s).

(** [for x in l: body(x)] *)
Fixpoint for_each {A} (l : list A) (body : A -> M unit) : M unit :=
  match l with
  | [] => ret tt
  | x :: l' => body x ;; for_each l' body
  end.

(** ** The pipeline *)

Definition query_max : Z := 1000.

Definition newline : ascii := "010"%char.

(** The keyword test of the filter and of [identified_needs]:
    [kw.lower() in title or kw.lower() in content]. *)
Definition keyword_in (title content kw : string) : bool :=
  Py.contains (Py.lower kw) title || Py.contains (Py.lower kw) content.

(** The score read off the response text, [min_score] by default: the
    digits of the first line holding the label, as one number. A line
    without a digit, or with a digit [int] refuses, leaves the default. *)
Definition extract_score (min_score : Z) (response_text : string) : Z :=
  if Py.contains "Score:" response_text then
    match filter (Py.contains "Score:") (Py.split newline response_text) with
    | score_line :: _ =>
        match Py.int (Py.filter_join Py.isdigit score_line) with
        | Some n => n
        | None => min_score
        end
    | [] => min_score
    end
  else min_score.

Definition analysis_prompt (title content subreddit author : string) : string :=
  "
ANALYZE THIS POST FOR B2B LEAD QUALIFICATION:

**Post Details:**
Title: " ++ title ++ "
Content: " ++ content ++ "
Subreddit: r/" ++ subreddit ++ "
Author: u/" ++ author ++ "

**Your Task:**
Determine if this is a potential B2B customer for business intelligence/analytics software.

**Analysis Required:**
1. Is this a BUSINESS need or personal/student project?
2. Are they a decision-maker or influencer in their organization?
3. What specific BI/analytics pain points do they have?
4. Do they mention budget, team size, or enterprise requirements?
5. What red flags exist (if any)?

**Provide Output in This Format:**
Score: [1-10 based on scoring guide]
Business Context: [Is this business or personal? Evidence?]
Decision Authority: [Likely decision-maker? Why/why not?]
Pain Points: [Specific BI/analytics challenges mentioned]
Budget Indicators: [Any mention of budget, paid tools, or willingness to invest?]
Red Flags: [Student/hobby/tutorial-seeking indicators?]
Recommendation: [Should we pursue this lead? Why?]

Be critical and specific. We only want real business opportunities.
".

Definition unavailable : string := "Keyword match - agent analysis unavailable".

(** [str(post.author) if post.author else "N/A"] *)
Definition author_name (post_author : option string) : string :=
  match post_author with
  | Some a => a
  | None => "N/A"
  end.

(** [f"https://reddit.com{post.permalink}"] *)
Definition post_url (permalink : string) : string :=
  "https://reddit.com" ++ permalink.

(** [str(v)] of a value that is a text or [None] *)
Definition str (v : option string) : string :=
  match v with
  | Some t => t
  | None => "None"
  end.

(** [str(post.selftext).lower() if hasattr(post, 'selftext') else ""] *)
Definition lowered_selftext (post : Post.t) : string :=
  match Post.selftext post with
  | Some v => Py.lower (str v)
  | None => ""
  end.

(** [str(post.selftext)[:n] if hasattr(post, 'selftext') else ""] *)
Definition selftext_to (n : nat) (post : Post.t) : string :=
  match Post.selftext post with
  | Some v => Py.str_take n (str v)
  | None => ""
  end.

(** [post.selftext[:600] if hasattr(post, 'selftext') else 'No content']:
    the slice is taken of the value itself, and raises on [None]. *)
Definition prompt_content (post : Post.t) : option string :=
  match Post.selftext post with
  | Some (Some t) => Some (Py.str_take 600 t)
  | Some None => None
  | None => Some "No content"
  end.

Section Pipeline.

Variable env : Env.

(** One query of the content API, recorded in the trace. *)
Definition call_listing (r : Ranking) (subreddit : string) (limit : Z)
  : M (list Post.t) :=
  s <- get_st ;;
  log (EvListing r subreddit limit) ;;
  attr (listing env (List.length (events s)) r subreddit limit).

(** One call of the scoring agent, recorded in the trace. *)
Definition call_agent (prompt : string) : M (option string) :=
  s <- get_st ;;
  log (EvAgentRun prompt) ;;
  match agent_run env (List.length (events s)) prompt with
  | AgentRaises => raise
  | AgentResponse content => ret content
  end.

(** Obtaining [subreddit_obj]. *)
Definition get_subreddit (subreddit : string) : M unit :=
  s <- get_st ;;
  if open_subreddit env (List.length (events s)) subreddit then ret tt
  else raise.

(** The posts of the stage that are not yet among the fetched ones. *)
Definition unique_posts (existing fetched : list Post.t) : list Post.t :=
  let existing_ids := map Post.id existing in
  filter (fun p => negb (Py.mem (Post.id p) existing_ids)) fetched.

(** A later stage: [top] or [hot]. *)
Definition more_posts (r : Ranking) (subreddit : string)
           (limit_per_subreddit : Z) : M unit :=
  try_except
    (acc <- get_posts ;;
     fetched <- call_listing r subreddit
                  (Z.min (limit_per_subreddit - Py.len acc) query_max) ;;
     acc' <- get_posts ;;
     extend_posts (unique_posts acc' fetched))
    (log (EvWarning (WarnListing r subreddit))).

(** The Collector: lines 183 to 217, the value of [subreddit_posts]. *)
Definition fetch_posts (subreddit : string) (limit_per_subreddit : Z)
  : M (list Post.t) :=
  reset_posts ;;
  try_except
    (new_posts <- call_listing New subreddit
                    (Z.min limit_per_subreddit query_max) ;;
     extend_posts new_posts)
    (log (EvWarning (WarnListing New subreddit))) ;;
  (if limit_per_subreddit >? query_max then
     more_posts Top subreddit limit_per_subreddit ;;
     acc <- get_posts ;;
     if Py.len acc <? limit_per_subreddit
     then more_posts Hot subreddit limit_per_subreddit
     else ret tt
   else ret tt) ;;
  acc <- get_posts ;;
  ret (Py.slice_to acc limit_per_subreddit).

Variable keywords : list string.
Variable min_score : Z.

(** The body of the [if response and response.content:] block. *)
Definition score_response (lead : Z -> string -> Lead.t)
           (response_text : string) : M unit :=
  let score := extract_score min_score response_text in
  update_post_info (PostInfo.set_ai_score score) ;;
  update_post_info (PostInfo.set_ai_analysis (Py.str_take 400 response_text)) ;;
  if score >=? min_score then
    update_post_info (PostInfo.set_is_lead true) ;;
    set_stats (fun st => mkStats (total_posts st) (posts_analyzed st)
                                 (leads_found st + 1)) ;;
    append_lead (lead score (Py.str_take 400 response_text))
  else ret tt.

(** The statements of one iteration over the posts, inside its [try]. *)
Definition analyze_post_body (subreddit : string) (post : Post.t) : M unit :=
  post_title <- attr (Post.title post) ;;
  let title := Py.lower post_title in
  let content := lowered_selftext post in
  permalink <- attr (Post.permalink post) ;;
  post_author <- attr (Post.author post) ;;
  created_utc <- attr (Post.created_utc post) ;;
  date <- attr (strftime_date env created_utc) ;;
  score <- attr (Post.score post) ;;
  num_comments <- attr (Post.num_comments post) ;;
  set_post_info
    (PostInfo.mk post_title (post_url permalink) (author_name post_author)
                 subreddit date score num_comments (selftext_to 200 post)
                 false false false None None) ;;
  let matches_keywords := existsb (keyword_in title content) keywords in
  update_post_info (PostInfo.set_matched_keywords matches_keywords) ;;
  (if matches_keywords then
     set_stats (fun st => mkStats (total_posts st) (posts_analyzed st + 1)
                                  (leads_found st)) ;;
     excerpt <- attr (prompt_content post) ;;
     let prompt :=
       analysis_prompt post_title excerpt subreddit
                       (author_name post_author) in
     let lead_data relevance analysis :=
       Lead.mk (author_name post_author) post_title (post_url permalink)
               (selftext_to 300 post) subreddit relevance
               (filter (keyword_in title content) keywords) date analysis in
     try_except
       (update_post_info (PostInfo.set_ai_analyzed true) ;;
        response <- call_agent prompt ;;
        match response with
        | Some response_text =>
            if String.eqb response_text "" then ret tt
            else score_response lead_data response_text
        | None => ret tt
        end)
       (append_lead (lead_data min_score unavailable))
   else ret tt) ;;
  append_explored.

(** One iteration over the posts: an exception moves on to the next. *)
Definition analyze_post (subreddit : string) (post : Post.t) : M unit :=
  try_except (analyze_post_body subreddit post) (ret tt).

(** The body of the loop over the subreddits. *)
Definition search_subreddit (limit_per_subreddit : Z) (subreddit : string)
  : M unit :=
  try_except
    (get_subreddit subreddit ;;
     subreddit_posts <- fetch_posts subreddit limit_per_subreddit ;;
     set_stats (fun st => mkStats (total_posts st + Py.len subreddit_posts)
                                  (posts_analyzed st) (leads_found st)) ;;
     for_each subreddit_posts (analyze_post subreddit))
    (log (EvWarning (WarnSubreddit subreddit))).

End Pipeline.

Definition init_st : St :=
  mkSt [] [] (mkStats 0 0 0) [] None [].

(** The five credentials of the form. *)
Record Credentials := mkCredentials {
  openai_api_key : string;
  reddit_client_id : string;
  reddit_client_secret : string;
  reddit_username : string;
  reddit_password : string
}.

(** The state at the [return] of the function; its result is the triple
    [run_result]. *)
Definition track_leads_function (env : Env) (cred : Credentials)
           (subreddits keywords : list string)
           (limit_per_subreddit min_score : Z) : St :=
  snd (for_each subreddits
         (search_subreddit env keywords min_score limit_per_subreddit)
         init_st).

Definition run_result (s : St) : list Lead.t * list PostInfo.t * Stats :=
  (all_leads s, all_posts_explored s, stats s).

(** [st.session_state] *)
Record Session := mkSession {
  session_leads : list Lead.t;
  session_all_posts : list PostInfo.t;
  search_stats : Stats;
  search_completed : bool
}.

Definition nonempty (s : string) : bool := negb (String.eqb s "").

(** The handler of the search button: the new session state and the
    trace of what was done. *)
Definition search_button_handler (env : Env) (session : Session)
           (cred : Credentials) (subreddits keywords : list string)
           (posts_per_subreddit min_relevance_score : Z)
  : Session * list Event :=
  if negb (forallb nonempty
             [openai_api_key cred; reddit_client_id cred;
              reddit_client_secret cred; reddit_username cred;
              reddit_password cred])
  then (session, [EvError ErrCredentials])
  else if Py.len subreddits =? 0 then (session, [EvError ErrNoSubreddit])
  else if Py.len keywords =? 0 then (session, [EvError ErrNoKeyword])
  else
    let s := track_leads_function env cred subreddits keywords
               posts_per_subreddit min_relevance_score in
    (mkSession (all_leads s) (all_posts_explored s) (stats s) true, events s).

(** ** Notions used in the statements *)

Definition score_label : string := "Score:".

(** A credential left empty, no subreddit, or no keyword. *)
Definition missing_input (cred : Credentials) (subreddits keywords : list string)
  : Prop :=
  openai_api_key cred = "" \/ reddit_client_id cred = "" \/
  reddit_client_secret cred = "" \/ reddit_username cred = "" \/
  reddit_password cred = "" \/ subreddits = [] \/ keywords = [].

(** What the unguarded reads of one iteration give when none of them
    raises: title, permalink, author, formatted date, score and number
    of comments. *)
Record Fields := mkFields {
  f_title : string;
  f_permalink : string;
  f_author : option string;
  f_date : string;
  f_score : Z;
  f_num_comments : Z
}.

Definition read_fields (env : Env) (post : Post.t) : option Fields :=
  match Post.title post, Post.permalink post, Post.author post,
        Post.created_utc post, Post.score post, Post.num_comments post with
  | Some t, Some pl, Some a, Some c, Some sc, Some nc =>
      match strftime_date env c with
      | Some d => Some (mkFields t pl a d sc nc)
      | None => None
      end
  | _, _, _, _, _, _ => None
  end.

(** The record of the item as first built, all flags false. *)
Definition shell (subreddit : string) (post : Post.t) (f : Fields) : PostInfo.t :=
  PostInfo.mk (f_title f) (post_url (f_permalink f)) (author_name (f_author f))
              subreddit (f_date f) (f_score f) (f_num_comments f)
              (selftext_to 200 post) false false false None None.

(** The keyword test on the lowercased title and body of the item. *)
Definition item_keyword (post : Post.t) (f : Fields) (kw : string) : bool :=
  keyword_in (Py.lower (f_title f)) (lowered_selftext post) kw.

Definition matches (keywords : list string) (post : Post.t) (f : Fields) : bool :=
  existsb (item_keyword post f) keywords.

(** The prompt for the item, when it can be built. *)
Definition prompt_of (subreddit : string) (post : Post.t) (f : Fields)
  : option string :=
  match prompt_content post with
  | Some content =>
      Some (analysis_prompt (f_title f) content subreddit
                            (author_name (f_author f)))
  | None => None
  end.

Definition lead_of (keywords : list string) (subreddit : string)
           (post : Post.t) (f : Fields) (relevance : Z) (analysis : string)
  : Lead.t :=
  Lead.mk (author_name (f_author f)) (f_title f) (post_url (f_permalink f))
          (selftext_to 300 post) subreddit relevance
          (filter (item_keyword post f) keywords) (f_date f) analysis.

(** The record of a keyword-matched item once sent to the agent, and once
    scored. *)
Definition analyzed_record (subreddit : string) (post : Post.t) (f : Fields)
  : PostInfo.t :=
  PostInfo.set_ai_analyzed true
    (PostInfo.set_matched_keywords true (shell subreddit post f)).

Definition scored_record (subreddit : string) (post : Post.t) (f : Fields)
           (score : Z) (text : string) : PostInfo.t :=
  PostInfo.set_ai_analysis (Py.str_take 400 text)
    (PostInfo.set_ai_score score (analyzed_record subreddit post f)).

(** The state after an item that was not skipped: the new leads, the
    record of the item, what is added to the two counters of the
    qualification, and the new events. *)
Definition commit (s : St) (leads : list Lead.t) (record : PostInfo.t)
           (analyzed found : Z) (evs : list Event) : St :=
  mkSt (all_leads s ++ leads) (all_posts_explored s ++ [record])
       (mkStats (total_posts (stats s)) (posts_analyzed (stats s) + analyzed)
                (leads_found (stats s) + found))
       (all_posts_from_subreddit s) (Some record) (events s ++ evs).

(** The seven ways one iteration over the posts can go. *)
Inductive post_step (env : Env) (keywords : list string) (min_score : Z)
          (subreddit : string) (post : Post.t) (s : St) : St -> Prop :=
| step_skipped :
    read_fields env post = None ->
    post_step env keywords min_score subreddit post s s
| step_unmatched f :
    read_fields env post = Some f ->
    matches keywords post f = false ->
    post_step env keywords min_score subreddit post s
      (commit s [] (PostInfo.set_matched_keywords false (shell subreddit post f))
              0 0 [])
| step_no_prompt f :
    read_fields env post = Some f ->
    matches keywords post f = true ->
    prompt_of subreddit post f = None ->
    post_step env keywords min_score subreddit post s
      (mkSt (all_leads s) (all_posts_explored s)
            (mkStats (total_posts (stats s)) (posts_analyzed (stats s) + 1)
                     (leads_found (stats s)))
            (all_posts_from_subreddit s)
            (Some (PostInfo.set_matched_keywords true (shell subreddit post f)))
            (events s))
| step_fallback f prompt :
    read_fields env post = Some f ->
    matches keywords post f = true ->
    prompt_of subreddit post f = Some prompt ->
    agent_run env (List.length (events s)) prompt = AgentRaises ->
    post_step env keywords min_score subreddit post s
      (commit s [lead_of keywords subreddit post f min_score unavailable]
              (analyzed_record subreddit post f) 1 0 [EvAgentRun prompt])
| step_no_content f prompt content :
    read_fields env post = Some f ->
    matches keywords post f = true ->
    prompt_of subreddit post f = Some prompt ->
    agent_run env (List.length (events s)) prompt = AgentResponse content ->
    content = None \/ content = Some "" ->
    post_step env keywords min_score subreddit post s
      (commit s [] (analyzed_record subreddit post f) 1 0 [EvAgentRun prompt])
| step_accepted f prompt text :
    read_fields env post = Some f ->
    matches keywords post f = true ->
    prompt_of subreddit post f = Some prompt ->
    agent_run env (List.length (events s)) prompt = AgentResponse (Some text) ->
    text <> "" ->
    min_score <= extract_score min_score text ->
    post_step env keywords min_score subreddit post s
      (commit s [lead_of keywords subreddit post f
                         (extract_score min_score text) (Py.str_take 400 text)]
              (PostInfo.set_is_lead true
                 (scored_record subreddit post f
                                (extract_score min_score text) text))
              1 1 [EvAgentRun prompt])
| step_rejected f prompt text :
    read_fields env post = Some f ->
    matches keywords post f = true ->
    prompt_of subreddit post f = Some prompt ->
    agent_run env (List.length (events s)) prompt = AgentResponse (Some text) ->
    text <> "" ->
    extract_score min_score text < min_score ->
    post_step env keywords min_score subreddit post s
      (commit s []
              (scored_record subreddit post f
                             (extract_score min_score text) text)
              1 0 [EvAgentRun prompt]).

(** The number of records flagged as leads. *)
Definition count_leads (explored : list PostInfo.t) : Z :=
  Py.len (filter PostInfo.is_lead explored).

(** The state with another list of fetched posts and another trace. *)
Definition with_posts (s : St) (ps : list Post.t) (evs : list Event) : St :=
  mkSt (all_leads s) (all_posts_explored s) (stats s) ps (post_info s) evs.

(** What a later stage leaves in the list of fetched posts, and what one
    stage adds to the trace, from the answer to its query. *)
Definition stage_posts (answer : option (list Post.t)) (acc : list Post.t)
  : list Post.t :=
  match answer with
  | Some fetched => acc ++ unique_posts acc fetched
  | None => acc
  end.

Definition stage_events (r : Ranking) (subreddit : string) (limit : Z)
           (answer : option (list Post.t)) : list Event :=
  match answer with
  | Some _ => [EvListing r subreddit limit]
  | None => [EvListing r subreddit limit; EvWarning (WarnListing r subreddit)]
  end.

(** The identifiers of a list of posts are pairwise distinct. *)
Definition distinct_ids (ps : list Post.t) : Prop := NoDup (map Post.id ps).

(** The same, as a test. *)
Fixpoint distinctb (ids : list string) : bool :=
  match ids with
  | [] => true
  | i :: ids' => negb (Py.mem i ids') && distinctb ids'
  end.


(** ** Sample inputs *)

Definition sample_cred : Credentials :=
  mkCredentials "sk-test" "client" "secret" "user" "pass".

Definition sample_post (i t : string) : Post.t :=
  Post.mk i (Some t) (Some (Some "Our company needs better reporting"))
          (Some (Some "alice")) (Some ("/r/analytics/comments/" ++ i))
          (Some 1700000000) (Some 5) (Some 2).

(** An environment whose answers do not change with time: one answer per
    ranking, one behaviour of the agent. *)
Definition env_of (answers : Ranking -> option (list Post.t))
           (agent : AgentResult) : Env :=
  mkEnv (fun _ _ => true) (fun _ r _ _ => answers r) (fun _ _ => agent)
        (fun _ => Some "2023-11-14").

(** Posts [prefix ++ "0"], [prefix ++ "1"], ... *)
Definition numbered (prefix : string) (from count : nat) : list Post.t :=
  map (fun k => sample_post (prefix ++ NilEmpty.string_of_uint (Nat.to_uint k))
                            "Weekly thread")
      (seq from count).

(** A "new" listing that repeats a post. *)
Definition env_repeat : Env :=
  env_of (fun r => match r with
                   | New => Some [sample_post "a1" "KPI tracking";
                                  sample_post "a1" "KPI tracking"]
                   | _ => None
                   end)
         (AgentResponse None).

(** Three listings that overlap pairwise. *)
Definition env_overlap : Env :=
  env_of (fun r => match r with
                   | New => Some (numbered "p" 0 3)
                   | Top => Some (numbered "p" 2 3)
                   | Hot => Some (numbered "p" 4 3)
                   end)
         (AgentResponse None).




(** The contract of the Collector as the specification words it: a list
    without repeated identifiers, of at most [cap] posts. *)
Definition collector_contract (env : Env) (subreddit : string) (cap : Z)
           (s : St) : Prop :=
  exists out,
    fst (fetch_posts env subreddit cap s) = Val out /\
    distinct_ids out /\ Py.len out <= cap.

(** The state once a subreddit has been fetched: [n] more posts counted,
    another list of fetched posts, another trace. *)
Definition fetched (s : St) (n : Z) (ps : list Post.t) (evs : list Event) : St :=
  mkSt (all_leads s) (all_posts_explored s)
       (mkStats (total_posts (stats s) + n) (posts_analyzed (stats s))
                (leads_found (stats s)))
       ps (post_info s) evs.

(** A property of the state that the fetching of a subreddit cannot
    break. *)
Definition fetch_stable (P : St -> Prop) : Prop :=
  forall s n ps evs, P s -> P (fetched s n ps evs).

(** A post without a title, and a listing that holds only it. *)
Definition untitled_post : Post.t :=
  Post.mk "b7" None (Some (Some "KPI tracking for our sales team"))
          (Some (Some "bob")) (Some "/r/analytics/comments/b7")
          (Some 1700000000) (Some 3) (Some 0).

Definition env_new (ps : list Post.t) (agent : AgentResult) : Env :=
  env_of (fun r => match r with New => Some ps | _ => None end) agent.

(** A post that matches the keyword "bi dashboard". *)
Definition dashboard_post : Post.t := sample_post "a1" "Need a BI Dashboard".

Definition dashboard_fields : Fields :=
  mkFields "Need a BI Dashboard" "/r/analytics/comments/a1" (Some "alice")
           "2023-11-14" 5 2.

(** "An item whose processing raises is counted in no statistic", read as:
    the counters of a run over a listing that holds the item are those
    of the run over the listing without it. *)
Definition skipped_item_uncounted (before after : list Post.t) (item : Post.t)
           (agent : AgentResult) (keywords : list string) (cap min_score : Z)
  : Prop :=
  let run ps := track_leads_function (env_new ps agent) sample_cred
                  ["analytics"] keywords cap min_score in
  fst (analyze_post_body (env_new (before ++ item :: after) agent) keywords
                         min_score "analytics" item init_st) = Exc ->
  stats (run (before ++ item :: after)%list) = stats (run (before ++ after)%list).

(** What every lead owes to the item it comes from: a score that reaches
    the threshold, and the keywords of the list that the item matches,
    of which there is at least one. *)
Definition lead_ok (keywords : list string) (min_score : Z) (l : Lead.t) : Prop :=
  min_score <= Lead.relevance_score l /\
  exists post f,
    Post.title post = Some (f_title f) /\
    Lead.post_title l = f_title f /\
    matches keywords post f = true /\
    Lead.identified_needs l = filter (item_keyword post f) keywords.

(** The invariant the record flags and the counter of leads keep, with
    the list of leads possibly ahead of them. *)
Definition flags_counted (s : St) : Prop :=
  leads_found (stats s) = count_leads (all_posts_explored s) /\
  count_leads (all_posts_explored s) <= Py.len (all_leads s).

Definition agent_answers (env : Env) : Prop :=
  forall t prompt, agent_run env t prompt <> AgentRaises.

(** A run over one subreddit whose "new" listing is [ps]. *)
Definition sample_run (ps : list Post.t) (agent : AgentResult)
           (keywords : list string) (min_score : Z) : St :=
  track_leads_function (env_new ps agent) sample_cred ["analytics"] keywords
                       10 min_score.

Definition empty_session : Session := mkSession [] [] (mkStats 0 0 0) false.

(** A post whose body is [None], with a title that matches "kpi tracking". *)
Definition null_body_post : Post.t :=
  Post.mk "d4" (Some "KPI tracking tool?") (Some None) (Some None)
          (Some "/r/analytics/comments/d4") (Some 1700000000) (Some 1) (Some 0).

(** ** Notions used in the further properties *)

(** [sub] occurs in [s] as a run of consecutive characters. *)
Definition occurs (sub s : string) : Prop :=
  exists pre post, s = pre ++ sub ++ post.

(** What a record of the explored list shows of the way its item went:
    an item is sent to the agent exactly when it matches a keyword, a
    score comes with a rationale, a lead is a scored item whose score
    reaches the threshold, and a scored item below it is no lead. *)
Definition record_ok (min_score : Z) (r : PostInfo.t) : Prop :=
  PostInfo.ai_analyzed r = PostInfo.matched_keywords r /\
  (PostInfo.ai_score r = None <-> PostInfo.ai_analysis r = None) /\
  (PostInfo.matched_keywords r = false -> PostInfo.ai_score r = None) /\
  (PostInfo.is_lead r = true -> exists n, PostInfo.ai_score r = Some n) /\
  (forall n, PostInfo.ai_score r = Some n ->
             (PostInfo.is_lead r = true <-> min_score <= n)).

(** The texts a record and a lead carry are cut to size. *)
Definition record_sized (r : PostInfo.t) : Prop :=
  (String.length (PostInfo.content_preview r) <= 200)%nat /\
  forall a, PostInfo.ai_analysis r = Some a -> (String.length a <= 400)%nat.

Definition lead_sized (l : Lead.t) : Prop :=
  (String.length (Lead.post_content l) <= 300)%nat /\
  (String.length (Lead.ai_analysis l) <= 400)%nat.

(** Whether the iteration over a post ends with a record: its fields can
    be read and, if it matches a keyword, its prompt can be built. *)
Definition recorded (env : Env) (keywords : list string) (subreddit : string)
           (post : Post.t) : bool :=
  match read_fields env post with
  | Some f =>
      negb (matches keywords post f &&
            match prompt_of subreddit post f with
            | Some _ => false
            | None => true
            end)
  | None => false
  end.

(** A record is the record of a post. *)
Definition record_of (env : Env) (keywords : list string) (subreddit : string)
           (post : Post.t) (r : PostInfo.t) : Prop :=
  exists f,
    read_fields env post = Some f /\
    PostInfo.title r = f_title f /\
    PostInfo.url r = post_url (f_permalink f) /\
    PostInfo.subreddit r = subreddit /\
    PostInfo.matched_keywords r = matches keywords post f.

Definition is_agent_run (e : Event) : bool :=
  match e with
  | EvAgentRun _ => true
  | _ => false
  end.

Definition is_listing (e : Event) : bool :=
  match e with
  | EvListing _ _ _ => true
  | _ => false
  end.

(** The limit of a query of the content API stays within [query_max]. *)
Definition within_query_max (e : Event) : Prop :=
  match e with
  | EvListing _ _ limit => limit <= query_max
  | _ => True
  end.

(** An event of the Collector: no call of the agent, and a limit within
    [query_max] if it is a query. *)
Definition fetch_event (e : Event) : Prop :=
  is_agent_run e = false /\ within_query_max e.

(** The counters against the lists: no more leads than analyzed posts,
    no more analyzed posts and no more records than fetched posts. *)
Definition counters_ordered (s : St) : Prop :=
  0 <= leads_found (stats s) /\
  leads_found (stats s) <= Py.len (all_leads s) /\
  Py.len (all_leads s) <= posts_analyzed (stats s) /\
  posts_analyzed (stats s) <= total_posts (stats s) /\
  Py.len (all_posts_explored s) <= total_posts (stats s).

(** As many calls of the agent in the trace as records sent to it. *)
Definition agent_calls_recorded (s : St) : Prop :=
  List.length (filter is_agent_run (events s))
  = List.length (filter PostInfo.ai_analyzed (all_posts_explored s)).

(** The lines of a response hold no label, or the first line that holds
    it holds no digit. *)
Definition unparseable (response_text : string) : Prop :=
  (forall l, In l (Py.split newline response_text) ->
             Py.contains score_label l = false)
  \/ exists pre line post,
       Py.split newline response_text = (pre ++ line :: post)%list /\
       (forall l, In l pre -> Py.contains score_label l = false) /\
       Py.contains score_label line = true /\
       Py.filter_join Py.isdigit line = "".

(** A post with a body that is not a lead by itself: the agent decides. *)
Definition env_scoring (text : string) : Env :=
  env_new [dashboard_post] (AgentResponse (Some text)).

Definition dashboard_prompt : string :=
  analysis_prompt "Need a BI Dashboard" "Our company needs better reporting"
                  "analytics" "alice".

(** An environment in which every query of the content API raises. *)
Definition env_api_down : Env :=
  env_of (fun _ => None) AgentRaises.

(** An environment in which no subreddit handle can be obtained. *)
Definition env_unreachable : Env :=
  mkEnv (fun _ _ => false) (fun _ _ _ _ => None) (fun _ _ => AgentRaises)
        (fun _ => None).

(** ** The form and the tabs of the page *)

(** More operations of Python strings and lists. *)
Module PyText.

(** [c.isspace()] on one character below 256. *)
Definition isspace (c : ascii) : bool :=
  let n := nat_of_ascii c in
  (((9 <=? n) && (n <=? 13)) || ((28 <=? n) && (n <=? 32))
   || (n =? 133) || (n =? 160))%nat.

(** [s.lstrip()] *)
Fixpoint lstrip (s : string) : string :=
  match s with
  | EmptyString => EmptyString
  | String c s' => if isspace c then lstrip s' else s
  end.

(** [s.rstrip()] *)
Fixpoint rstrip (s : string) : string :=
  match s with
  | EmptyString => EmptyString
  | String c s' =>
      match rstrip s' with
      | EmptyString => if isspace c then EmptyString else String c EmptyString
      | r => String c r
      end
  end.

(** [s.strip()] *)
Definition strip (s : string) : string := rstrip (lstrip s).

(** [sep.join(l)] *)
Fixpoint join (sep : string) (l : list string) : string :=
  match l with
  | [] => EmptyString
  | x :: l' =>
      match l' with
      | [] => x
      | _ :: _ => x ++ sep ++ join sep l'
      end
  end.

(** Every character of [s] passes the test. *)
Fixpoint all_chars (p : ascii -> bool) (s : string) : bool :=
  match s with
  | EmptyString => true
  | String c s' => p c && all_chars p s'
  end.

(** [sorted(l, key=...)], [le x y] telling that the key of [x] is at
    most the key of [y]: the sort is stable, so that an element goes
    before the elements of equal key that followed it. With
    [reverse=True] the test is that the key of [x] is at least the key
    of [y], elements of equal key keeping their order all the same. *)
Fixpoint insert_sorted {A} (le : A -> A -> bool) (x : A) (l : list A) : list A :=
  match l with
  | [] => [x]
  | y :: l' => if le x y then x :: y :: l' else y :: insert_sorted le x l'
  end.

Definition sorted {A} (le : A -> A -> bool) (l : list A) : list A :=
  fold_right (insert_sorted le) [] l.

End PyText.

(** A dictionary with integer values, its keys in the order of their
    insertion. *)
Section Dict.

Context {K : Type}.
Variable key_eqb : K -> K -> bool.

(** [d.get(k, default)] *)
Fixpoint dict_get (d : list (K * Z)) (k : K) (default : Z) : Z :=
  match d with
  | [] => default
  | (k', v) :: d' => if key_eqb k' k then v else dict_get d' k default
  end.

(** [d[k] = v] *)
Fixpoint dict_set (d : list (K * Z)) (k : K) (v : Z) : list (K * Z) :=
  match d with
  | [] => [(k, v)]
  | (k', v') :: d' =>
      if key_eqb k' k then (k', v) :: d' else (k', v') :: dict_set d' k v
  end.

(** [for x in l: d[key(x)] = d.get(key(x), 0) + 1], from the empty
    dictionary. *)
Definition count_by {A} (key : A -> K) (l : list A) : list (K * Z) :=
  fold_left (fun d x => dict_set d (key x) (dict_get d (key x) 0 + 1)) l [].

End Dict.

(** The lines of a text area, stripped, the empty ones left out. *)
Definition parse_lines (input : string) : list string :=
  map PyText.strip
      (filter (fun s => nonempty (PyText.strip s)) (Py.split newline input)).

Definition default_subreddits : list string :=
  ["dataanalysis"; "datascience"; "businessintelligence"; "analytics";
   "visualization"; "PowerBI"; "tableau"; "excel"].

Definition default_keywords : list string :=
  ["business intelligence"; "BI dashboard"; "company needs analytics";
   "business reporting"; "enterprise analytics"; "KPI tracking";
   "business metrics"; "data visualization for business";
   "management reporting"; "business analysis tool"; "corporate dashboard";
   "executive reporting"].

(** The value a text area starts with. *)
Definition text_area_value (lines : list string) : string :=
  PyText.join (String newline EmptyString) lines.

(** The click on the search button, from the texts of the form. *)
Definition submit_form (env : Env) (session : Session) (cred : Credentials)
           (subreddits_input keywords_input : string)
           (posts_per_subreddit min_relevance_score : Z)
  : Session * list Event :=
  search_button_handler env session cred (parse_lines subreddits_input)
                        (parse_lines keywords_input)
                        posts_per_subreddit min_relevance_score.

(** The dashboard tab. *)
Definition high_quality (leads : list Lead.t) : Z :=
  Py.len (filter (fun l => Lead.relevance_score l >=? 8) leads).

(** [len(set(l['subreddit'] for l in leads))] *)
Definition unique_subreddits (leads : list Lead.t) : Z :=
  Py.len (nodup string_dec (map Lead.subreddit leads)).

Definition subreddit_counts (leads : list Lead.t) : list (string * Z) :=
  count_by String.eqb Lead.subreddit leads.

Definition score_counts (leads : list Lead.t) : list (Z * Z) :=
  count_by Z.eqb Lead.relevance_score leads.

(** The leads tab: the two filters, then the sort. *)
Definition filter_by_subreddit (filter_subreddit : string)
           (leads : list Lead.t) : list Lead.t :=
  if String.eqb filter_subreddit "All" then leads
  else filter (fun l => String.eqb (Lead.subreddit l) filter_subreddit) leads.

Definition filter_by_score (filter_score : string) (leads : list Lead.t)
  : list Lead.t :=
  if String.eqb filter_score "8-10"
  then filter (fun l => Lead.relevance_score l >=? 8) leads
  else if String.eqb filter_score "7-9"
  then filter (fun l => (7 <=? Lead.relevance_score l)
                        && (Lead.relevance_score l <=? 9)) leads
  else if String.eqb filter_score "6-8"
  then filter (fun l => (6 <=? Lead.relevance_score l)
                        && (Lead.relevance_score l <=? 8)) leads
  else leads.

Definition by_score_desc (x y : Lead.t) : bool :=
  Lead.relevance_score y <=? Lead.relevance_score x.

Definition by_date_desc (x y : Lead.t) : bool :=
  String.leb (Lead.post_date y) (Lead.post_date x).

Definition by_subreddit (x y : Lead.t) : bool :=
  String.leb (Lead.subreddit x) (Lead.subreddit y).

Definition sort_leads (sort_by : string) (leads : list Lead.t) : list Lead.t :=
  if String.eqb sort_by "Relevance Score" then PyText.sorted by_score_desc leads
  else if String.eqb sort_by "Date" then PyText.sorted by_date_desc leads
  else if String.eqb sort_by "Subreddit" then PyText.sorted by_subreddit leads
  else leads.

Definition filtered_leads (filter_subreddit filter_score sort_by : string)
           (leads : list Lead.t) : list Lead.t :=
  sort_leads sort_by
    (filter_by_score filter_score (filter_by_subreddit filter_subreddit leads)).

(** The all-posts tab: the three counts of its summary, and its filter
    by status. *)
Definition keyword_matches (all_posts : list PostInfo.t) : Z :=
  Py.len (filter PostInfo.matched_keywords all_posts).

Definition ai_analyzed (all_posts : list PostInfo.t) : Z :=
  Py.len (filter PostInfo.ai_analyzed all_posts).

Definition leads_count (all_posts : list PostInfo.t) : Z :=
  Py.len (filter PostInfo.is_lead all_posts).

Definition filter_by_status (filter_status : string)
           (all_posts : list PostInfo.t) : list PostInfo.t :=
  if String.eqb filter_status "Keyword Match"
  then filter PostInfo.matched_keywords all_posts
  else if String.eqb filter_status "AI Analyzed"
  then filter PostInfo.ai_analyzed all_posts
  else if String.eqb filter_status "Leads Only"
  then filter PostInfo.is_lead all_posts
  else if String.eqb filter_status "Non-Leads"
  then filter (fun p => negb (PostInfo.is_lead p)) all_posts
  else all_posts.

(** An entry of a text area that parsing leaves as it is. *)
Definition clean_entry (e : string) : Prop :=
  e <> "" /\ PyText.strip e = e /\ Py.has_char newline e = false.

(** The values of a dictionary, summed. *)
Definition dict_total {K : Type} (d : list (K * Z)) : Z :=
  fold_right (fun kv acc => snd kv + acc) 0 d.

(** The session the handler leaves after a run. *)
Definition session_after (env : Env) (cred : Credentials)
           (subreddits keywords : list string)
           (posts_per_subreddit min_relevance_score : Z) : Session :=
  fst (search_button_handler env empty_session cred subreddits keywords
                             posts_per_subreddit min_relevance_score).

Definition complete_input (cred : Credentials)
           (subreddits keywords : list string) : Prop :=
  openai_api_key cred <> "" /\ reddit_client_id cred <> "" /\
  reddit_client_secret cred <> "" /\ reddit_username cred <> "" /\
  reddit_password cred <> "" /\ subreddits <> [] /\ keywords <> [].

(** The content API honours the limit of a query for the subreddit: an
    answer holds at most [limit] posts, none for a limit below zero. *)
Definition honours_limit (env : Env) (subreddit : string) : Prop :=
  forall t r limit l,
    listing env t r subreddit limit = Some l -> Py.len l <= Z.max 0 limit.

(** An environment that cuts its answers at the limit asked for. *)
Definition env_honest : Env :=
  mkEnv (fun _ _ => true)
        (fun _ r _ limit =>
           Some (firstn (Z.to_nat limit)
                        match r with
                        | New => numbered "p" 0 1200
                        | Top => numbered "p" 900 1200
                        | Hot => numbered "p" 2000 1200
                        end))
        (fun _ _ => AgentResponse None) (fun _ => Some "2023-11-14").

(** Two spellings of a keyword that lowercase to the same text. *)
Definition same_lowercase (a b : string) : Prop := Py.lower a = Py.lower b.

(** A lead without its matched keywords. *)
Definition forget_needs (l : Lead.t) : Lead.t :=
  Lead.mk (Lead.username l) (Lead.post_title l) (Lead.post_url l)
          (Lead.post_content l) (Lead.subreddit l) (Lead.relevance_score l)
          [] (Lead.post_date l) (Lead.ai_analysis l).

(** Two results that differ at most by the spelling of the matched
    keywords of their leads: the same leads otherwise, in the same order,
    the same explored records, the same counters and the same trace. *)
Definition same_but_spelling (s s' : St) : Prop :=
  map forget_needs (all_leads s) = map forget_needs (all_leads s') /\
  Forall2 (fun l l' => Forall2 same_lowercase (Lead.identified_needs l)
                                              (Lead.identified_needs l'))
          (all_leads s) (all_leads s') /\
  all_posts_explored s = all_posts_explored s' /\
  stats s = stats s' /\
  events s = events s'.

(** [c * n] for a string of one character *)
Fixpoint repeat_char (c : ascii) (n : nat) : string :=
  match n with
  | O => EmptyString
  | S n' => String c (repeat_char c n')
  end.

(** * Properties *)

(** ** Strings: a label without a line break is found in a text exactly
    when it is found in one of its lines *)

Section Lines.

Lemma split_not_nil sep s : Py.split sep s <> [].
Proof.
  destruct s as [|c s]; simpl; [discriminate|].
  destruct (Ascii.eqb c sep); [discriminate|].
  destruct (Py.split sep s); discriminate.
Qed.

Lemma startswith_nil_r sub : Py.startswith sub "" = true -> sub = "".
Proof. destruct sub; simpl; [reflexivity | discriminate]. Qed.

Lemma contains_nil_r sub : Py.contains sub "" = Py.startswith sub "".
Proof. simpl. apply orb_false_r. Qed.

(** A label without the separator starts a text exactly when it starts
    the first line of the text. *)
Lemma startswith_first_line sep sub :
  Py.has_char sep sub = false ->
  forall s, Py.startswith sub s = Py.startswith sub (hd "" (Py.split sep s)).
Proof.
  induction sub as [|a sub IH]; intros Hfree s.
  - destruct s as [|b s]; simpl; [reflexivity|].
    destruct (Ascii.eqb b sep); [reflexivity|].
    destruct (Py.split sep s); reflexivity.
  - simpl in Hfree. apply orb_false_iff in Hfree as [Ha Hsub].
    destruct s as [|b s]; simpl; [reflexivity|].
    destruct (Ascii.eqb b sep) eqn:Hb.
    + simpl. apply Ascii.eqb_eq in Hb. subst b. rewrite Ha. reflexivity.
    + specialize (IH Hsub s).
      pose proof (split_not_nil sep s) as Hne.
      destruct (Py.split sep s) as [|l ls]; [contradiction|].
      simpl in *. rewrite IH. reflexivity.
Qed.

Theorem contains_split sep sub :
  Py.has_char sep sub = false ->
  forall s, Py.contains sub s = existsb (Py.contains sub) (Py.split sep s).
Proof.
  intros Hfree s. induction s as [|c s IH].
  - simpl. rewrite !orb_false_r. reflexivity.
  - pose proof (startswith_first_line sep sub Hfree (String c s)) as Hfirst.
    change (Py.contains sub (String c s))
      with (Py.startswith sub (String c s) || Py.contains sub s).
    rewrite Hfirst, IH. clear Hfirst IH.
    simpl. destruct (Ascii.eqb c sep) eqn:Hc.
    + simpl. rewrite orb_false_r. reflexivity.
    + pose proof (split_not_nil sep s) as Hne.
      destruct (Py.split sep s) as [|l ls]; [contradiction|].
      simpl. rewrite orb_assoc. reflexivity.
Qed.

Lemma existsb_false_filter {A} (f : A -> bool) l :
  (forall x, In x l -> f x = false) -> filter f l = [].
Proof.
  induction l as [|x l IH]; intros H; simpl; [reflexivity|].
  rewrite (H x (or_introl eq_refl)). apply IH. intros y Hy. apply H. now right.
Qed.

Lemma filter_first {A} (f : A -> bool) pre x post :
  (forall y, In y pre -> f y = false) -> f x = true ->
  filter f (pre ++ x :: post) = x :: filter f post.
Proof.
  intros Hpre Hx. rewrite filter_app, (existsb_false_filter f pre Hpre).
  simpl. rewrite Hx. reflexivity.
Qed.

End Lines.

(** ** Score parsing *)

Example extract_score_all_digits :
  extract_score 7 "Score: 8/10" = 810.
Proof. reflexivity. Qed.

Example extract_score_first_label_wins :
  extract_score 7 "Relevance Score: n/a
Score: 8 (strong business signal)" = 7.
Proof. reflexivity. Qed.

Example extract_score_superscript :
  Py.isdigit (ascii_of_nat 178) = true /\
  extract_score 7 (String (ascii_of_nat 178) "Score: 9") = 7.
Proof. split; reflexivity. Qed.

(** C7. The score is read from the first line of the response that holds
    the label "Score:": when the digit characters of that line form a
    number, that number is the score; in particular a response whose
    first labelled line is "Score: 8 (strong business signal)" gives 8;
    and a response none of whose lines holds the label gives [min_score]. *)
Theorem C7_score_parsing (min_score : Z) (response_text : string) :
  (forall pre line post n,
      Py.split newline response_text = (pre ++ line :: post)%list ->
      (forall l, In l pre -> Py.contains score_label l = false) ->
      Py.contains score_label line = true ->
      Py.int (Py.filter_join Py.isdigit line) = Some n ->
      extract_score min_score response_text = n)
  /\ (forall pre post,
         Py.split newline response_text
         = (pre ++ "Score: 8 (strong business signal)" :: post)%list ->
         (forall l, In l pre -> Py.contains score_label l = false) ->
         extract_score min_score response_text = 8)
  /\ ((forall l, In l (Py.split newline response_text) ->
                 Py.contains score_label l = false) ->
      extract_score min_score response_text = min_score).
Proof.
  assert (Hfirst : forall pre line post n,
      Py.split newline response_text = (pre ++ line :: post)%list ->
      (forall l, In l pre -> Py.contains score_label l = false) ->
      Py.contains score_label line = true ->
      Py.int (Py.filter_join Py.isdigit line) = Some n ->
      extract_score min_score response_text = n).
  { intros pre line post n Hsplit Hpre Hline Hint.
    unfold extract_score.
    rewrite (contains_split newline "Score:" eq_refl), Hsplit.
    rewrite existsb_app. simpl existsb.
    change (Py.contains "Score:" line) with (Py.contains score_label line).
    rewrite Hline, orb_true_r.
    change (Py.contains "Score:") with (Py.contains score_label).
    rewrite (filter_first _ pre line post Hpre Hline), Hint. reflexivity. }
  split; [exact Hfirst | split].
  - intros pre post Hsplit Hpre.
    apply (Hfirst pre _ post 8 Hsplit Hpre); reflexivity.
  - intros Hnone. unfold extract_score.
    rewrite (contains_split newline "Score:" eq_refl).
    destruct (existsb (Py.contains "Score:") (Py.split newline response_text))
      eqn:Hex; [|reflexivity].
    apply existsb_exists in Hex as (l & Hin & Hl).
    specialize (Hnone l Hin). unfold score_label in Hnone. congruence.
Qed.

Lemma C7_score_parsing_witness :
  extract_score 7 "Here is my assessment.
Score: 8 (strong business signal)
Business Context: a company replacing spreadsheets
Recommendation: pursue" = 8
  /\ extract_score 7 "Looks like a student project.
Recommendation: skip" = 7.
Proof.
  split.
  - apply (proj1 (proj2 (C7_score_parsing 7 _))
             ["Here is my assessment."]
             ["Business Context: a company replacing spreadsheets";
              "Recommendation: pursue"]).
    + reflexivity.
    + intros l [<- | []]. reflexivity.
  - apply (proj2 (proj2 (C7_score_parsing 7 _))).
    intros l [<- | [<- | []]]; reflexivity.
Defined.

(** ** Input validation of the search handler *)

(** C8. With a credential left empty, no subreddit or no keyword, the
    handler reports one error and does nothing else: the session is left
    as it was and the trace holds no query of the content API and no call
    of the scoring agent. *)
Theorem C8_missing_input_no_network env session cred subreddits keywords
        posts_per_subreddit min_relevance_score :
  missing_input cred subreddits keywords ->
  let (session', trace) :=
    search_button_handler env session cred subreddits keywords
                          posts_per_subreddit min_relevance_score in
  session' = session /\
  (exists e, trace = [EvError e]) /\
  filter is_network trace = [].
Proof.
  intros Hmiss. unfold search_button_handler.
  destruct (negb _) eqn:Hcred.
  { repeat split; eauto. }
  destruct (Py.len subreddits =? 0) eqn:Hsub.
  { repeat split; eauto. }
  destruct (Py.len keywords =? 0) eqn:Hkw.
  { repeat split; eauto. }
  exfalso.
  apply negb_false_iff in Hcred. simpl in Hcred.
  unfold nonempty in Hcred.
  repeat (apply andb_true_iff in Hcred as [? Hcred]).
  unfold missing_input in Hmiss.
  repeat match goal with
         | H : negb (String.eqb ?x "") = true |- _ =>
             apply negb_true_iff, String.eqb_neq in H
         end.
  destruct Hmiss as [H'|[H'|[H'|[H'|[H'|[H'|H']]]]]]; try contradiction.
  - subst. discriminate.
  - subst. discriminate.
Qed.

(** ** One iteration over the posts *)

Ltac run_post :=
  unfold analyze_post, analyze_post_body, score_response, call_agent,
    try_except, bind, attr, ret, raise, get_st, log, set_stats, append_lead,
    append_explored, set_post_info, update_post_info;
  cbn [post_info events all_leads all_posts_explored stats
       all_posts_from_subreddit total_posts posts_analyzed leads_found].

Ltac read_some H :=
  unfold read_fields in H;
  repeat match type of H with
         | context [match ?o with Some _ => _ | None => _ end] =>
             let E := fresh "E" in destruct o eqn:E; try discriminate H
         end;
  injection H as <-.

Lemma read_fields_some env post f :
  read_fields env post = Some f ->
  exists c,
    Post.title post = Some (f_title f) /\
    Post.permalink post = Some (f_permalink f) /\
    Post.author post = Some (f_author f) /\
    Post.created_utc post = Some c /\
    strftime_date env c = Some (f_date f) /\
    Post.score post = Some (f_score f) /\
    Post.num_comments post = Some (f_num_comments f).
Proof. intros H. read_some H. eexists. repeat split; eassumption. Qed.

Lemma commit_nothing s record :
  commit s [] record 0 0 []
  = mkSt (all_leads s) (all_posts_explored s ++ [record]) (stats s)
         (all_posts_from_subreddit s) (Some record) (events s).
Proof.
  unfold commit. rewrite !app_nil_r, !Z.add_0_r.
  destruct s as [? ? [? ? ?] ? ? ?]. reflexivity.
Qed.

(** A post one of whose unguarded reads fails raises before anything is
    changed. *)
Lemma analyze_post_body_unreadable env keywords min_score subreddit post s :
  read_fields env post = None ->
  analyze_post_body env keywords min_score subreddit post s = (Exc, s).
Proof.
  intros H. unfold read_fields in H. run_post.
  destruct (Post.title post); [|reflexivity].
  destruct (Post.permalink post); [|reflexivity].
  destruct (Post.author post); [|reflexivity].
  destruct (Post.created_utc post) as [c|]; [|reflexivity].
  destruct (strftime_date env c);
    [|destruct (Post.score post); reflexivity].
  destruct (Post.score post); [|reflexivity].
  destruct (Post.num_comments post); [discriminate|reflexivity].
Qed.

(** A post all of whose reads succeed goes one of the six other ways;
    its iteration raises only when the prompt cannot be built, after the
    post was counted as analyzed. *)
Lemma analyze_post_body_readable env keywords min_score subreddit post f s :
  read_fields env post = Some f ->
  exists r s',
    analyze_post_body env keywords min_score subreddit post s = (r, s') /\
    post_step env keywords min_score subreddit post s s' /\
    (r = Exc <->
     matches keywords post f = true /\ prompt_of subreddit post f = None).
Proof.
  intros Hread.
  assert (Hstep : forall s1 s2,
             post_step env keywords min_score subreddit post s s1 ->
             s1 = s2 ->
             post_step env keywords min_score subreddit post s s2)
    by (intros; subst; assumption).
  assert (Hval : forall P : Prop, (P -> False) -> (@Val unit tt = Exc <-> P))
    by (intros P HP; split; [discriminate | intros HP'; destruct (HP HP')]).
  destruct (read_fields_some _ _ _ Hread)
    as (c & Ht & Hpl & Ha & Hc & Hd & Hsc & Hnc).
  run_post. rewrite Ht, Hpl, Ha, Hc, Hd, Hsc, Hnc.
  cbn [post_info events all_leads all_posts_explored stats
       all_posts_from_subreddit total_posts posts_analyzed leads_found].
  change (existsb (keyword_in (Py.lower (f_title f)) (lowered_selftext post))
                  keywords)
    with (matches keywords post f).
  destruct (matches keywords post f) eqn:Hm.
  2:{ do 2 eexists; split; [reflexivity|]. split.
      - eapply Hstep; [eapply step_unmatched; eassumption|].
        rewrite commit_nothing. reflexivity.
      - apply Hval. intros [? _]. discriminate. }
  cbn [post_info events all_leads all_posts_explored stats
       all_posts_from_subreddit total_posts posts_analyzed leads_found].
  pose proof (eq_refl (prompt_of subreddit post f)) as Hprompt.
  unfold prompt_of at 2 in Hprompt.
  destruct (prompt_content post) as [content|].
  2:{ do 2 eexists; split; [reflexivity|]. split.
      - eapply step_no_prompt; eassumption.
      - split; [intros _; split; [reflexivity | assumption] | reflexivity]. }
  cbn [post_info events all_leads all_posts_explored stats
       all_posts_from_subreddit total_posts posts_analyzed leads_found].
  set (prompt := analysis_prompt _ _ _ _) in *.
  assert (Hsome : forall b : bool,
             (b = true /\ prompt_of subreddit post f = None) -> False)
    by (intros b [_ Hnone]; congruence).
  destruct (agent_run env (List.length (events s)) prompt)
    as [|[text|]] eqn:Hag.
  - do 2 eexists; split; [reflexivity|]. split; [|apply Hval, Hsome].
    eapply Hstep; [eapply step_fallback; eassumption|].
    unfold commit. rewrite ?Z.add_0_r. reflexivity.
  - destruct (String.eqb_spec text "") as [->|Hne].
    + do 2 eexists; split; [reflexivity|]. split; [|apply Hval, Hsome].
      eapply Hstep; [eapply step_no_content; eauto|].
      unfold commit. rewrite ?app_nil_r, ?Z.add_0_r. reflexivity.
    + cbn [post_info events all_leads all_posts_explored stats
           all_posts_from_subreddit total_posts posts_analyzed leads_found].
      rewrite Z.geb_leb.
      destruct (Z.leb_spec min_score (extract_score min_score text)) as [Hle|Hlt].
      * do 2 eexists; split; [reflexivity|]. split; [|apply Hval, Hsome].
        eapply Hstep; [eapply step_accepted; eassumption|]. reflexivity.
      * do 2 eexists; split; [reflexivity|]. split; [|apply Hval, Hsome].
        eapply Hstep; [eapply step_rejected; eassumption|].
        unfold commit. rewrite ?app_nil_r, ?Z.add_0_r. reflexivity.
  - do 2 eexists; split; [reflexivity|]. split; [|apply Hval, Hsome].
    eapply Hstep; [eapply step_no_content; eauto|].
    unfold commit. rewrite ?app_nil_r, ?Z.add_0_r. reflexivity.
Qed.

Lemma analyze_post_returns env keywords min_score subreddit post s :
  fst (analyze_post env keywords min_score subreddit post s) = Val tt.
Proof.
  unfold analyze_post, try_except.
  destruct (read_fields env post) as [f|] eqn:Hread.
  - destruct (analyze_post_body_readable env keywords min_score subreddit
                post f s Hread) as ([[]|] & s' & -> & _); reflexivity.
  - rewrite analyze_post_body_unreadable by assumption. reflexivity.
Qed.

Lemma analyze_post_step env keywords min_score subreddit post s :
  post_step env keywords min_score subreddit post s
            (snd (analyze_post env keywords min_score subreddit post s)).
Proof.
  unfold analyze_post, try_except.
  destruct (read_fields env post) as [f|] eqn:Hread.
  - destruct (analyze_post_body_readable env keywords min_score subreddit
                post f s Hread) as ([[]|] & s' & -> & Hstep & _); exact Hstep.
  - rewrite analyze_post_body_unreadable by assumption.
    apply step_skipped. assumption.
Qed.

(** The iteration raises exactly when one of the unguarded reads fails,
    or when the post matches a keyword and its prompt cannot be built. *)
Lemma analyze_post_body_raises_iff env keywords min_score subreddit post s :
  fst (analyze_post_body env keywords min_score subreddit post s) = Exc
  <-> read_fields env post = None \/
      exists f, read_fields env post = Some f /\
                matches keywords post f = true /\
                prompt_of subreddit post f = None.
Proof.
  destruct (read_fields env post) as [f|] eqn:Hread.
  - destruct (analyze_post_body_readable env keywords min_score subreddit
                post f s Hread) as (r & s' & -> & _ & Hexc).
    cbn [fst]. rewrite Hexc. split.
    + intros H. right. exists f. split; [reflexivity | exact H].
    + intros [H | (g & Hg & H)]; [discriminate|].
      injection Hg as <-. exact H.
  - rewrite analyze_post_body_unreadable by exact Hread. cbn [fst].
    split; [intros _; left; reflexivity | reflexivity].
Qed.

(** ** The Collector *)

Ltac run_fetch :=
  unfold more_posts, call_listing, try_except, bind, attr, ret,
    raise, get_st, get_posts, log, reset_posts, extend_posts;
  cbn [post_info events all_leads all_posts_explored stats
       all_posts_from_subreddit].

Lemma more_posts_run env r subreddit cap s :
  let limit := Z.min (cap - Py.len (all_posts_from_subreddit s)) query_max in
  let answer := listing env (List.length (events s)) r subreddit limit in
  more_posts env r subreddit cap s
  = (Val tt,
     with_posts s (stage_posts answer (all_posts_from_subreddit s))
                (events s ++ stage_events r subreddit limit answer)).
Proof.
  intros limit answer. subst limit answer. run_fetch.
  destruct (listing env _ r subreddit _) as [fetched|]; cbn.
  - reflexivity.
  - unfold with_posts. rewrite <- app_assoc. reflexivity.
Qed.

(** The run of the Collector, stage by stage. *)
Lemma fetch_posts_run env subreddit cap s :
  let a1 := listing env (List.length (events s)) New subreddit
              (Z.min cap query_max) in
  let ps1 := match a1 with Some l => l | None => [] end in
  let s1 := with_posts s ps1
              (events s ++ stage_events New subreddit (Z.min cap query_max) a1) in
  let s2 := if cap >? query_max
            then snd (more_posts env Top subreddit cap s1) else s1 in
  let s3 := if (cap >? query_max)
               && (Py.len (all_posts_from_subreddit s2) <? cap)
            then snd (more_posts env Hot subreddit cap s2) else s2 in
  fetch_posts env subreddit cap s
  = (Val (Py.slice_to (all_posts_from_subreddit s3) cap), s3).
Proof.
  intros a1 ps1 s1 s2 s3.
  assert (H1 : forall k : unit -> M (list Post.t),
             bind (try_except
                     (bind (call_listing env New subreddit (Z.min cap query_max))
                           extend_posts)
                     (log (EvWarning (WarnListing New subreddit)))) k
                  (snd (reset_posts s))
             = k tt s1).
  { intros k. subst s1 ps1 a1. run_fetch.
    destruct (listing env _ New subreddit _) as [l|]; cbn.
    - reflexivity.
    - unfold with_posts. cbn. rewrite <- app_assoc. reflexivity. }
  unfold fetch_posts.
  change (bind reset_posts ?k s) with (k tt (snd (reset_posts s))).
  cbv beta. rewrite H1.
  subst s3 s2. destruct (cap >? query_max); cbn [andb].
  - unfold bind at 1. unfold bind at 1.
    rewrite (more_posts_run env Top subreddit cap s1). cbn [snd].
    unfold bind at 1. unfold get_posts at 1.
    destruct (Py.len _ <? cap).
    + rewrite more_posts_run. cbn [snd]. reflexivity.
    + reflexivity.
  - reflexivity.
Qed.

Lemma mem_In x ids : Py.mem x ids = true <-> In x ids.
Proof.
  unfold Py.mem. rewrite existsb_exists. split.
  - intros (y & Hy & Heq). apply String.eqb_eq in Heq. now subst.
  - intros Hin. exists x. split; [assumption | apply String.eqb_refl].
Qed.

Lemma distinctb_sound ids : distinctb ids = true -> NoDup ids.
Proof.
  induction ids as [|i ids IH]; simpl; intros H; constructor.
  - apply andb_true_iff in H as [H _]. apply negb_true_iff in H.
    intros Hin. apply mem_In in Hin. congruence.
  - apply IH. apply andb_true_iff in H as [_ H]. exact H.
Qed.

Lemma distinct_ids_filter (f : Post.t -> bool) ps :
  distinct_ids ps -> distinct_ids (filter f ps).
Proof.
  unfold distinct_ids. induction ps as [|p ps IH]; simpl; intros H; [exact H|].
  apply NoDup_cons_iff in H as [Hnotin Hnd].
  destruct (f p); simpl; [constructor|]; auto.
  intros Hin. apply Hnotin. apply in_map_iff in Hin as (q & Hq & Hin).
  apply filter_In in Hin as [Hin _]. apply in_map_iff. eauto.
Qed.

(** Appending what a stage fetched, less what was there, keeps the
    identifiers distinct. *)
Lemma distinct_ids_stage answer acc :
  distinct_ids acc ->
  (forall l, answer = Some l -> distinct_ids l) ->
  distinct_ids (stage_posts answer acc).
Proof.
  intros Hacc Hans. destruct answer as [l|]; simpl; [|exact Hacc].
  specialize (Hans l eq_refl). unfold distinct_ids in *.
  rewrite map_app. apply NoDup_app; [assumption | |].
  - apply (distinct_ids_filter _ l Hans).
  - intros i Hi Hin. apply in_map_iff in Hin as (p & <- & Hp).
    apply filter_In in Hp as [_ Hp]. apply negb_true_iff in Hp.
    apply mem_In in Hi. congruence.
Qed.

Lemma distinct_ids_firstn n ps : distinct_ids ps -> distinct_ids (firstn n ps).
Proof.
  unfold distinct_ids. intros H.
  rewrite <- (firstn_skipn n ps), map_app in H.
  apply NoDup_app_remove_r in H. exact H.
Qed.

Lemma distinct_ids_slice ps cap : distinct_ids ps -> distinct_ids (Py.slice_to ps cap).
Proof.
  intros H. unfold Py.slice_to.
  destruct (0 <=? cap); apply distinct_ids_firstn; exact H.
Qed.

Lemma slice_to_len {A} (l : list A) cap : 0 < cap -> Py.len (Py.slice_to l cap) <= cap.
Proof.
  intros Hcap. unfold Py.slice_to, Py.len.
  destruct (Z.leb_spec 0 cap); [|lia].
  pose proof (firstn_le_length (Z.to_nat cap) l). lia.
Qed.

(** C5, as the code has it. For every source and every positive cap the
    Collector returns a list of at most [cap] posts; the identifiers of
    the list are pairwise distinct provided each answer of the content
    API is free of repeated identifiers: the stages discard what an
    earlier stage fetched, not what one answer repeats. *)
Theorem C5_collector_output env subreddit cap s :
  0 < cap ->
  exists out,
    fst (fetch_posts env subreddit cap s) = Val out /\
    Py.len out <= cap /\
    ((forall t r k l, listing env t r subreddit k = Some l -> distinct_ids l) ->
     distinct_ids out).
Proof.
  intros Hcap. rewrite fetch_posts_run. cbn [fst].
  eexists. split; [reflexivity|]. split; [apply slice_to_len; exact Hcap|].
  intros Hans. apply distinct_ids_slice.
  set (a1 := listing env _ New subreddit _).
  set (s1 := with_posts s _ _).
  assert (H1 : distinct_ids (all_posts_from_subreddit s1)).
  { subst s1. cbn. destruct a1 as [l|] eqn:Ha1; [|constructor].
    eapply Hans. exact Ha1. }
  assert (Hmore : forall r st, distinct_ids (all_posts_from_subreddit st) ->
            distinct_ids (all_posts_from_subreddit
                            (snd (more_posts env r subreddit cap st)))).
  { intros r st Hst. rewrite more_posts_run. cbn.
    apply distinct_ids_stage; [exact Hst|]. intros l Hl. eapply Hans. exact Hl. }
  destruct (cap >? query_max); cbn [andb].
  - destruct (Py.len _ <? cap); auto.
  - exact H1.
Qed.

Lemma C5_collector_output_witness :
  0 < 1500 /\
  exists out,
    fst (fetch_posts env_overlap "analytics" 1500 init_st) = Val out /\
    Py.len out <= 1500 /\ distinct_ids out.
Proof.
  split; [lia|].
  destruct (C5_collector_output env_overlap "analytics" 1500 init_st)
    as (out & Hout & Hlen & Hdistinct); [lia|].
  exists out. split; [exact Hout|]. split; [exact Hlen|].
  apply Hdistinct. intros t r k l Hl.
  destruct r; injection Hl as <-; apply distinctb_sound; vm_compute; reflexivity.
Defined.

Example fetch_overlap :
  fst (fetch_posts env_overlap "analytics" 1500 init_st)
  = Val (numbered "p" 0 7).
Proof. vm_compute. reflexivity. Qed.

(** C5, as the specification words it, fails: a "new" listing that holds
    the same post twice comes out of the Collector as it came in. *)
Lemma C5_repeated_answer_counterexample :
  0 < 10 /\ ~ collector_contract env_repeat "analytics" 10 init_st.
Proof.
  split; [lia|]. intros (out & Hout & Hdistinct & _).
  vm_compute in Hout. injection Hout as <-.
  unfold distinct_ids in Hdistinct. simpl in Hdistinct.
  apply NoDup_cons_iff in Hdistinct as [Hnotin _].
  apply Hnotin. left. reflexivity.
Qed.





(** ** The two loops *)

Lemma for_each_cons {A} (x : A) l (body : A -> M unit) s :
  fst (body x s) = Val tt ->
  for_each (x :: l) body s = for_each l body (snd (body x s)).
Proof.
  intros H. simpl. unfold bind. destruct (body x s) as [[[]|] s']; simpl in *.
  - reflexivity.
  - discriminate.
Qed.

(** The loop over the posts of a subreddit runs to its end and keeps
    whatever every iteration keeps. *)
Lemma analyze_loop env keywords min_score subreddit (P : St -> Prop) :
  (forall p s, P s -> P (snd (analyze_post env keywords min_score subreddit p s))) ->
  forall ps s,
    P s ->
    fst (for_each ps (analyze_post env keywords min_score subreddit) s) = Val tt /\
    P (snd (for_each ps (analyze_post env keywords min_score subreddit) s)).
Proof.
  intros Hbody ps. induction ps as [|p ps IH]; intros s Hs.
  - split; [reflexivity | exact Hs].
  - rewrite for_each_cons by apply analyze_post_returns.
    apply IH, Hbody, Hs.
Qed.

Lemma fetched_nothing s evs :
  fetched s 0 (all_posts_from_subreddit s) evs
  = mkSt (all_leads s) (all_posts_explored s) (stats s)
         (all_posts_from_subreddit s) (post_info s) evs.
Proof.
  unfold fetched. rewrite Z.add_0_r. destruct s as [? ? [? ? ?] ? ? ?].
  reflexivity.
Qed.

(** The frame of the Collector: it touches the list of fetched posts and
    the trace, nothing else. *)
Lemma fetch_posts_frame env subreddit cap s :
  exists out ps evs,
    fetch_posts env subreddit cap s = (Val out, with_posts s ps evs).
Proof.
  rewrite fetch_posts_run. cbv zeta.
  set (s1 := with_posts s _ _).
  assert (Hmore : forall r st,
             (exists ps evs, st = with_posts s ps evs) ->
             exists ps evs,
               snd (more_posts env r subreddit cap st) = with_posts s ps evs).
  { intros r st (ps & evs & ->). rewrite more_posts_run. cbn.
    do 2 eexists. reflexivity. }
  assert (H1 : exists ps evs, s1 = with_posts s ps evs)
    by (do 2 eexists; reflexivity).
  destruct (cap >? query_max); cbn [andb].
  - destruct (Hmore Top s1 H1) as (ps2 & evs2 & E2). rewrite E2.
    destruct (Py.len _ <? cap).
    + destruct (Hmore Hot (with_posts s ps2 evs2)) as (ps3 & evs3 & E3);
        [do 2 eexists; reflexivity|].
      rewrite E3. do 3 eexists. reflexivity.
    + do 3 eexists. reflexivity.
  - do 3 eexists. reflexivity.
Qed.

(** One subreddit: either its handle cannot be obtained, which is
    reported, or its posts are fetched, counted and then analyzed. *)
Lemma search_subreddit_run env keywords min_score cap subreddit s :
  fst (search_subreddit env keywords min_score cap subreddit s) = Val tt /\
  ((open_subreddit env (List.length (events s)) subreddit = false /\
    snd (search_subreddit env keywords min_score cap subreddit s)
    = fetched s 0 (all_posts_from_subreddit s)
              (events s ++ [EvWarning (WarnSubreddit subreddit)]))
   \/
   (open_subreddit env (List.length (events s)) subreddit = true /\
    exists out ps evs,
      fetch_posts env subreddit cap s = (Val out, with_posts s ps evs) /\
      snd (search_subreddit env keywords min_score cap subreddit s)
      = snd (for_each out (analyze_post env keywords min_score subreddit)
                      (fetched s (Py.len out) ps evs)))).
Proof.
  destruct (search_subreddit env keywords min_score cap subreddit s)
    as [r sf] eqn:E.
  cbn [fst snd].
  unfold search_subreddit, try_except, get_subreddit in E.
  unfold bind at 1 in E. unfold bind at 1 in E. unfold get_st at 1 in E.
  destruct (open_subreddit env (List.length (events s)) subreddit).
  - unfold ret at 1 in E. unfold bind at 1 in E.
    destruct (fetch_posts_frame env subreddit cap s) as (out & ps & evs & Ef).
    rewrite Ef in E. unfold bind at 1, set_stats at 1 in E.
    change (mkSt _ _ _ _ _ _) with (fetched s (Py.len out) ps evs) in E.
    destruct (analyze_loop env keywords min_score subreddit (fun _ => True)
                (fun _ _ _ => I) out (fetched s (Py.len out) ps evs) I)
      as [Hret _].
    destruct (for_each out _ _) as [r' s'] eqn:Eloop. cbn [fst snd] in *.
    subst r'. injection E as <- <-. split; [reflexivity|].
    right. split; [reflexivity|].
    exists out, ps, evs. split; [exact Ef | rewrite Eloop; reflexivity].
  - unfold raise at 1 in E. cbn in E. injection E as <- <-.
    split; [reflexivity|]. left. split; [reflexivity|].
    rewrite fetched_nothing. reflexivity.
Qed.

(** What holds at the start, survives the fetching of a subreddit and
    survives every iteration over a post, holds of the result. *)
Theorem run_invariant env cred subreddits keywords cap min_score
        (P : St -> Prop) :
  P init_st ->
  fetch_stable P ->
  (forall subreddit p s,
      P s -> P (snd (analyze_post env keywords min_score subreddit p s))) ->
  P (track_leads_function env cred subreddits keywords cap min_score).
Proof.
  intros Hinit Hstable Hpost. unfold track_leads_function.
  generalize init_st Hinit. clear Hinit.
  induction subreddits as [|subreddit rest IH]; intros s Hs; [exact Hs|].
  destruct (search_subreddit_run env keywords min_score cap subreddit s)
    as [Hret Hcases].
  rewrite for_each_cons by exact Hret. apply IH.
  destruct Hcases as [[_ ->] | [_ (out & ps & evs & _ & ->)]].
  - apply Hstable, Hs.
  - apply analyze_loop; [apply Hpost | apply Hstable, Hs].
Qed.

(** ** Items the agent fails on, items the agent has nothing to say on,
    items that cannot be read *)

Ltac other_step :=
  match goal with
  | H1 : read_fields ?e ?p = Some ?f, H2 : read_fields ?e ?p = Some ?g |- _ =>
      rewrite H1 in H2; injection H2 as <-
  | H1 : read_fields ?e ?p = Some _, H2 : read_fields ?e ?p = None |- _ =>
      rewrite H1 in H2; discriminate H2
  | H1 : prompt_of ?n ?p ?f = Some ?a, H2 : prompt_of ?n ?p ?f = Some ?b |- _ =>
      rewrite H1 in H2; injection H2 as <-
  | H1 : prompt_of ?n ?p ?f = Some _, H2 : prompt_of ?n ?p ?f = None |- _ =>
      rewrite H1 in H2; discriminate H2
  end.

(** C2. A keyword-matched item on which the call of the agent raises
    becomes a lead whose relevance score is [min_score] and whose
    rationale is the text of the unavailable analysis; the agent was
    called once, the iteration returns normally and the item is recorded
    among the explored posts. *)
Theorem C2_agent_failure_fallback env keywords min_score subreddit post f
        prompt s :
  read_fields env post = Some f ->
  matches keywords post f = true ->
  prompt_of subreddit post f = Some prompt ->
  agent_run env (List.length (events s)) prompt = AgentRaises ->
  let s' := snd (analyze_post env keywords min_score subreddit post s) in
  fst (analyze_post env keywords min_score subreddit post s) = Val tt /\
  (exists lead,
      all_leads s' = (all_leads s ++ [lead])%list /\
      Lead.relevance_score lead = min_score /\
      Lead.ai_analysis lead = unavailable /\
      Lead.post_title lead = f_title f) /\
  events s' = (events s ++ [EvAgentRun prompt])%list /\
  all_posts_explored s'
  = (all_posts_explored s ++ [analyzed_record subreddit post f])%list.
Proof.
  intros Hread Hmatch Hprompt Hagent s'. split; [apply analyze_post_returns|].
  pose proof (analyze_post_step env keywords min_score subreddit post s) as Hstep.
  fold s' in Hstep. clearbody s'.
  inversion Hstep; subst; repeat other_step; try congruence.
  cbn. split; [|split; reflexivity].
  eexists. split; [reflexivity|]. repeat split.
Qed.

Lemma C2_agent_failure_fallback_witness :
  let s' := snd (analyze_post (env_new [dashboard_post] AgentRaises)
                              ["bi dashboard"] 7 "analytics" dashboard_post
                              init_st) in
  map Lead.relevance_score (all_leads s') = [7] /\
  map Lead.ai_analysis (all_leads s') = [unavailable] /\
  List.length (events s') = 1%nat.
Proof.
  destruct (C2_agent_failure_fallback
              (env_new [dashboard_post] AgentRaises) ["bi dashboard"] 7
              "analytics" dashboard_post dashboard_fields _ init_st
              eq_refl eq_refl eq_refl eq_refl)
    as (_ & (lead & Hleads & Hscore & Htext & _) & Hevents & _).
  cbv zeta. rewrite Hleads, Hevents. cbn. rewrite Hscore, Htext.
  repeat split.
Defined.

(** C9. A keyword-matched item for which the agent returns a response
    without content, or with an empty one, is recorded as analyzed and
    counted as such, is not flagged as a lead, gets no score and no
    rationale, and adds no lead, whatever [min_score] is. *)
Theorem C9_empty_response env keywords min_score subreddit post f prompt s
        content :
  read_fields env post = Some f ->
  matches keywords post f = true ->
  prompt_of subreddit post f = Some prompt ->
  agent_run env (List.length (events s)) prompt = AgentResponse content ->
  content = None \/ content = Some "" ->
  let s' := snd (analyze_post env keywords min_score subreddit post s) in
  all_leads s' = all_leads s /\
  leads_found (stats s') = leads_found (stats s) /\
  posts_analyzed (stats s') = posts_analyzed (stats s) + 1 /\
  exists record,
    all_posts_explored s' = (all_posts_explored s ++ [record])%list /\
    PostInfo.matched_keywords record = true /\
    PostInfo.ai_analyzed record = true /\
    PostInfo.is_lead record = false /\
    PostInfo.ai_score record = None /\
    PostInfo.ai_analysis record = None.
Proof.
  intros Hread Hmatch Hprompt Hagent Hcontent s'.
  pose proof (analyze_post_step env keywords min_score subreddit post s) as Hstep.
  fold s' in Hstep. clearbody s'.
  inversion Hstep; subst; repeat other_step; try congruence.
  - cbn. rewrite app_nil_r, Z.add_0_r. repeat split.
    eexists. split; [reflexivity|]. repeat split.
  - exfalso. destruct Hcontent as [Hc|Hc]; rewrite Hc in Hagent; congruence.
  - exfalso. destruct Hcontent as [Hc|Hc]; rewrite Hc in Hagent; congruence.
Qed.

Lemma C9_empty_response_witness :
  let s' := snd (analyze_post (env_new [dashboard_post] (AgentResponse (Some "")))
                              ["bi dashboard"] 1 "analytics" dashboard_post
                              init_st) in
  all_leads s' = [] /\
  map PostInfo.ai_analyzed (all_posts_explored s') = [true] /\
  map PostInfo.is_lead (all_posts_explored s') = [false] /\
  map PostInfo.ai_score (all_posts_explored s') = [None].
Proof.
  destruct (C9_empty_response
              (env_new [dashboard_post] (AgentResponse (Some "")))
              ["bi dashboard"] 1 "analytics" dashboard_post dashboard_fields
              _ init_st (Some "") eq_refl eq_refl eq_refl eq_refl
              (or_intror eq_refl))
    as (Hleads & _ & _ & record & Hexp & _ & Han & Hlead & Hscore & _).
  cbv zeta. rewrite Hleads, Hexp. cbn. rewrite Han, Hlead, Hscore.
  repeat split.
Defined.

Lemma post_step_total env keywords min_score subreddit post s s' :
  post_step env keywords min_score subreddit post s s' ->
  total_posts (stats s') = total_posts (stats s).
Proof. intros H. inversion H; reflexivity. Qed.

Lemma total_posts_fetch_and_analyze env keywords min_score cap subreddit s :
  open_subreddit env (List.length (events s)) subreddit = true ->
  exists out,
    fst (fetch_posts env subreddit cap s) = Val out /\
    total_posts (stats (snd (search_subreddit env keywords min_score cap
                                              subreddit s)))
    = total_posts (stats s) + Py.len out.
Proof.
  intros Hopen.
  destruct (search_subreddit_run env keywords min_score cap subreddit s)
    as [_ [[Hclosed _] | [_ (out & ps & evs & Hfetch & ->)]]]; [congruence|].
  exists out. rewrite Hfetch. split; [reflexivity|].
  apply (analyze_loop env keywords min_score subreddit
           (fun st => total_posts (stats st) = total_posts (stats s) + Py.len out)).
  - intros p st Hst.
    rewrite (post_step_total _ _ _ _ _ _ _
               (analyze_post_step env keywords min_score subreddit p st)).
    exact Hst.
  - reflexivity.
Qed.

(** C3, as the code has it. An item whose processing raises is skipped:
    its iteration returns normally, adds no record and no lead and leaves
    the counter of leads as it was; when the exception is that of a field
    that cannot be read, the iteration leaves the whole state as it found
    it, the counter of analyzed posts included. The item has been counted
    among the fetched posts all the same: that counter grows by the size
    of the collected list before any item is processed. *)
Theorem C3_skipped_item env keywords min_score cap subreddit s :
  (forall post st,
      fst (analyze_post_body env keywords min_score subreddit post st) = Exc ->
      let st' := snd (analyze_post env keywords min_score subreddit post st) in
      fst (analyze_post env keywords min_score subreddit post st) = Val tt /\
      all_posts_explored st' = all_posts_explored st /\
      all_leads st' = all_leads st /\
      leads_found (stats st') = leads_found (stats st) /\
      (read_fields env post = None -> st' = st))
  /\ (open_subreddit env (List.length (events s)) subreddit = true ->
      exists out,
        fst (fetch_posts env subreddit cap s) = Val out /\
        total_posts (stats (snd (search_subreddit env keywords min_score cap
                                                  subreddit s)))
        = total_posts (stats s) + Py.len out).
Proof.
  split.
  - intros post st Hexc st'. split; [apply analyze_post_returns|].
    apply analyze_post_body_raises_iff in Hexc.
    pose proof (analyze_post_step env keywords min_score subreddit post st)
      as Hstep.
    fold st' in Hstep. clearbody st'.
    destruct Hexc as [Hnone | (f & Hread & Hmatch & Hprompt)];
      inversion Hstep; subst; repeat other_step; try congruence;
      repeat split; solve [reflexivity | intros Hn; congruence].
  - apply total_posts_fetch_and_analyze.
Qed.

Lemma C3_skipped_item_witness :
  let env := env_new [untitled_post] (AgentResponse None) in
  snd (analyze_post env ["kpi tracking"] 7 "analytics" untitled_post init_st)
  = init_st
  /\ total_posts (stats (snd (search_subreddit env ["kpi tracking"] 7 10
                                               "analytics" init_st))) = 1.
Proof.
  cbv zeta.
  pose proof (C3_skipped_item (env_new [untitled_post] (AgentResponse None))
                              ["kpi tracking"] 7 10 "analytics" init_st)
    as [Hskip Htotal].
  split.
  - apply (Hskip untitled_post init_st eq_refl). reflexivity.
  - destruct (Htotal eq_refl) as (out & Hout & ->).
    vm_compute in Hout. injection Hout as <-. reflexivity.
Defined.

(** C3, as the specification words it, fails: the run over a listing that
    holds one post without a title counts one fetched post, the run over
    the empty listing counts none. *)
Lemma C3_counted_counterexample :
  ~ skipped_item_uncounted [] [] untitled_post (AgentResponse None)
      ["kpi tracking"] 10 7.
Proof.
  unfold skipped_item_uncounted. intros H.
  specialize (H eq_refl). vm_compute in H. discriminate H.
Qed.

(** ** Leads *)


Lemma lead_of_ok env keywords min_score subreddit post f relevance analysis :
  read_fields env post = Some f ->
  matches keywords post f = true ->
  min_score <= relevance ->
  lead_ok keywords min_score
          (lead_of keywords subreddit post f relevance analysis).
Proof.
  intros Hread Hmatch Hle. split; [exact Hle|].
  destruct (read_fields_some _ _ _ Hread) as (c & Ht & _).
  exists post, f. repeat split; assumption.
Qed.

(** The leads an iteration adds are sound. *)
Lemma post_step_leads env keywords min_score subreddit post s s' :
  post_step env keywords min_score subreddit post s s' ->
  exists new,
    all_leads s' = (all_leads s ++ new)%list /\
    Forall (lead_ok keywords min_score) new.
Proof.
  intros H. inversion H; subst.
  - exists []. rewrite app_nil_r. split; [reflexivity | constructor].
  - exists []. split; [reflexivity | constructor].
  - exists []. cbn. rewrite app_nil_r. split; [reflexivity | constructor].
  - eexists. split; [reflexivity|]. constructor; [|constructor].
    eapply lead_of_ok; eauto. lia.
  - exists []. split; [reflexivity | constructor].
  - eexists. split; [reflexivity|]. constructor; [|constructor].
    eapply lead_of_ok; eauto.
  - exists []. split; [reflexivity | constructor].
Qed.

Lemma all_leads_ok env cred subreddits keywords cap min_score :
  Forall (lead_ok keywords min_score)
         (all_leads (track_leads_function env cred subreddits keywords cap
                                          min_score)).
Proof.
  apply (run_invariant env cred subreddits keywords cap min_score
           (fun s => Forall (lead_ok keywords min_score) (all_leads s))).
  - constructor.
  - intros s n ps evs Hs. exact Hs.
  - intros subreddit p s Hs.
    destruct (post_step_leads _ _ _ _ _ _ _
                (analyze_post_step env keywords min_score subreddit p s))
      as (new & -> & Hnew).
    apply Forall_app. split; assumption.
Qed.

(** C4. In every run, the relevance score of every lead returned, however
    it was scored, is at least [min_score]. *)
Theorem C4_lead_score_reaches_threshold env cred subreddits keywords cap
        min_score :
  Forall (fun lead => Lead.relevance_score lead >= min_score)
         (all_leads (track_leads_function env cred subreddits keywords cap
                                          min_score)).
Proof.
  eapply Forall_impl; [|apply all_leads_ok].
  intros lead [Hle _]. lia.
Qed.


(** ** Leads against flags *)

Lemma count_leads_snoc explored record :
  count_leads (explored ++ [record])
  = count_leads explored + (if PostInfo.is_lead record then 1 else 0).
Proof.
  unfold count_leads, Py.len. rewrite filter_app, length_app. simpl.
  destruct (PostInfo.is_lead record); simpl; lia.
Qed.

Lemma len_app {A} (l l' : list A) : Py.len (l ++ l') = Py.len l + Py.len l'.
Proof. unfold Py.len. rewrite length_app. lia. Qed.

(** The counter of leads and the flags of the records move together; a
    lead may be added without either. *)
Lemma post_step_flags env keywords min_score subreddit post s s' :
  post_step env keywords min_score subreddit post s s' ->
  flags_counted s -> flags_counted s'.
Proof.
  unfold flags_counted. intros H [Hfound Hle].
  inversion H; subst; [split; assumption | | split; assumption | ..];
    cbn [commit all_leads all_posts_explored stats leads_found];
    rewrite count_leads_snoc, len_app; cbn; unfold Py.len in *; cbn; lia.
Qed.

Lemma flags_counted_run env cred subreddits keywords cap min_score :
  flags_counted (track_leads_function env cred subreddits keywords cap
                                      min_score).
Proof.
  apply run_invariant.
  - split; reflexivity.
  - intros s n ps evs Hs. exact Hs.
  - intros subreddit p s Hs.
    eapply post_step_flags; [apply analyze_post_step | exact Hs].
Qed.

(** As long as the agent answers, there are as many leads as flagged
    records. *)
Lemma leads_match_flags_when_agent_answers env cred subreddits keywords cap
      min_score :
  agent_answers env ->
  let s := track_leads_function env cred subreddits keywords cap min_score in
  Py.len (all_leads s) = count_leads (all_posts_explored s).
Proof.
  intros Hanswers.
  apply (run_invariant env cred subreddits keywords cap min_score
           (fun s => Py.len (all_leads s) = count_leads (all_posts_explored s))).
  - reflexivity.
  - intros s n ps evs Hs. exact Hs.
  - intros subreddit p s Hs.
    pose proof (analyze_post_step env keywords min_score subreddit p s) as H.
    set (s' := snd _) in *. clearbody s'.
    inversion H; subst; [exact Hs | | exact Hs | ..];
      try (exfalso; eapply Hanswers; eassumption);
      cbn [commit all_leads all_posts_explored];
      rewrite count_leads_snoc, len_app; cbn; unfold Py.len in *; cbn; lia.
Qed.

(** C1, at an input on which the code departs from it. One post matches
    the keyword and the call of the agent raises: the run returns one
    lead, the one of the fallback, while the record of the post is not
    flagged as a lead and the counter of leads stays at zero. *)
Theorem C1_fallback_lead_unflagged :
  let s := sample_run [dashboard_post] AgentRaises ["bi dashboard"] 7 in
  Py.len (all_leads s) = 1 /\
  map Lead.ai_analysis (all_leads s) = [unavailable] /\
  map PostInfo.is_lead (all_posts_explored s) = [false] /\
  count_leads (all_posts_explored s) = 0 /\
  leads_found (stats s) = 0.
Proof. vm_compute. repeat split. Qed.

(** ** Sample runs *)

Example run_scored :
  let s := sample_run [dashboard_post; untitled_post; sample_post "c3" "Weekend plans"]
                      (AgentResponse (Some "Score: 8 (strong business signal)
Business Context: company"))
                      ["bi dashboard"; "Reporting"; "excel"] 7 in
  map Lead.relevance_score (all_leads s) = [8; 8] /\
  map Lead.identified_needs (all_leads s)
  = [["bi dashboard"; "Reporting"]; ["Reporting"]] /\
  map PostInfo.is_lead (all_posts_explored s) = [true; true] /\
  stats s = mkStats 3 2 2.
Proof. vm_compute. repeat split. Qed.

Lemma C8_missing_input_no_network_witness :
  let (session', trace) :=
    search_button_handler (env_new [dashboard_post] AgentRaises) empty_session
      (mkCredentials "" "client" "secret" "user" "pass")
      ["analytics"] ["bi dashboard"] 50 7 in
  session' = empty_session /\
  (exists e, trace = [EvError e]) /\
  filter is_network trace = [].
Proof.
  apply (C8_missing_input_no_network
           (env_new [dashboard_post] AgentRaises) empty_session
           (mkCredentials "" "client" "secret" "user" "pass")
           ["analytics"] ["bi dashboard"] 50 7).
  left. reflexivity.
Defined.

Example handler_runs_when_input_complete :
  let (session', trace) :=
    search_button_handler (env_new [dashboard_post] AgentRaises) empty_session
      sample_cred ["analytics"] ["bi dashboard"] 50 7 in
  search_completed session' = true /\
  List.length (filter is_network trace) = 2%nat.
Proof. vm_compute. split; reflexivity. Qed.

(** A post that matches a keyword and whose prompt cannot be built is
    skipped after it was counted as analyzed. *)
Example skipped_after_match :
  let s := sample_run [null_body_post] (AgentResponse None) ["kpi tracking"] 7 in
  stats s = mkStats 1 1 0 /\ all_posts_explored s = [] /\ all_leads s = [] /\
  events s = [EvListing New "analytics" 10].
Proof. vm_compute. repeat split. Qed.

(** * Further properties *)

(** ** Keyword matching *)

Lemma startswith_iff sub s :
  Py.startswith sub s = true <-> exists post, s = sub ++ post.
Proof.
  revert s. induction sub as [|a sub IH]; intros s.
  - split; [intros _; exists s; reflexivity | destruct s; reflexivity].
  - destruct s as [|b s]; simpl.
    + split; [discriminate | intros (post & H); discriminate H].
    + rewrite andb_true_iff, Ascii.eqb_eq, IH. split.
      * intros (-> & post & ->). exists post. reflexivity.
      * intros (post & H). injection H as -> ->. split; [reflexivity|].
        exists post. reflexivity.
Qed.

(** [sub in s] holds exactly when [sub] occurs in [s]. *)
Lemma contains_iff sub s : Py.contains sub s = true <-> occurs sub s.
Proof.
  unfold occurs. induction s as [|c s IH].
  - simpl. rewrite orb_false_r, startswith_iff. split.
    + intros (post & H). exists "", post. exact H.
    + intros ([|a pre] & post & H); [exists post; exact H | discriminate H].
  - change (Py.contains sub (String c s))
      with (Py.startswith sub (String c s) || Py.contains sub s).
    rewrite orb_true_iff, startswith_iff, IH. split.
    + intros [(post & H) | (pre & post & ->)].
      * exists "", post. exact H.
      * exists (String c pre), post. reflexivity.
    + intros ([|a pre] & post & H).
      * left. exists post. exact H.
      * right. injection H as -> ->. exists pre, post. reflexivity.
Qed.

(** X1. The keyword test holds exactly when the lowercased keyword occurs
    in the title or in the body it is given. *)
Theorem keyword_in_occurs title content kw :
  keyword_in title content kw = true
  <-> occurs (Py.lower kw) title \/ occurs (Py.lower kw) content.
Proof.
  unfold keyword_in. rewrite orb_true_iff, !contains_iff. reflexivity.
Qed.

(** ** Scores *)

Lemma int_acc_nonneg s : forall acc n,
  0 <= acc -> Py.int_acc acc s = Some n -> 0 <= n.
Proof.
  induction s as [|c s IH]; intros acc n Hacc H; cbn [Py.int_acc] in H.
  - injection H as <-. exact Hacc.
  - destruct (Py.isdecimal c); [|discriminate].
    apply (IH _ n) in H; [exact H|]. lia.
Qed.

(** X3. The score read off a response is the default or a number that is
    not negative: the parser bounds it from below, not from above. *)
Theorem extract_score_default_or_nonneg min_score response_text :
  extract_score min_score response_text = min_score \/
  0 <= extract_score min_score response_text.
Proof.
  unfold extract_score.
  destruct (Py.contains "Score:" response_text); [|left; reflexivity].
  destruct (filter _ _) as [|score_line rest]; [left; reflexivity|].
  destruct (Py.int _) as [n|] eqn:Hint; [|left; reflexivity].
  right. unfold Py.int in Hint.
  destruct (Py.filter_join Py.isdigit score_line) as [|c digits];
    [discriminate|].
  destruct (String.length (String c digits) <=? Py.max_str_digits)%nat;
    [|discriminate].
  eapply int_acc_nonneg; [|exact Hint]. lia.
Qed.

(** ** Records and leads of a run *)

Lemma str_take_length n s : (String.length (Py.str_take n s) <= n)%nat.
Proof.
  revert s. induction n as [|n IH]; intros [|c s]; simpl; try lia.
  specialize (IH s). lia.
Qed.

Lemma selftext_to_length n post : (String.length (selftext_to n post) <= n)%nat.
Proof.
  unfold selftext_to. destruct (Post.selftext post); [apply str_take_length|].
  simpl. lia.
Qed.

Lemma lead_of_sized keywords subreddit post f relevance analysis :
  (String.length analysis <= 400)%nat ->
  lead_sized (lead_of keywords subreddit post f relevance analysis).
Proof. intros H. split; [apply selftext_to_length | exact H]. Qed.

Ltac record_goal :=
  unfold record_ok; cbn -[Py.str_take extract_score]; repeat split; intros;
  repeat match goal with
         | H : Some ?x = Some ?n |- _ =>
             assert (x = n) by congruence; clear H; subst n
         end;
  try reflexivity; try discriminate; try congruence; try lia; eauto.

Ltac sized_goal Hshell :=
  split; [apply Hshell|]; cbn -[Py.str_take]; intros a Ha;
  [discriminate Ha ||
   match type of Ha with
   | Some ?x = Some _ =>
       replace a with x by congruence; apply str_take_length
   end].

(** What one iteration adds to the two lists is well formed. *)
Lemma post_step_added env keywords min_score subreddit post s s' :
  post_step env keywords min_score subreddit post s s' ->
  exists leads records,
    all_leads s' = (all_leads s ++ leads)%list /\
    all_posts_explored s' = (all_posts_explored s ++ records)%list /\
    Forall lead_sized leads /\
    Forall (record_ok min_score) records /\
    Forall record_sized records.
Proof.
  assert (Hshell : forall f flag, (String.length
            (PostInfo.content_preview
               (PostInfo.set_matched_keywords flag (shell subreddit post f)))
            <= 200)%nat)
    by (intros f flag; apply selftext_to_length).
  intros H. inversion H; subst.
  - exists [], []. rewrite !app_nil_r. repeat split; constructor.
  - do 2 eexists. split; [reflexivity|]. split; [reflexivity|].
    split; [constructor|]. split; (constructor; [|constructor]).
    + record_goal.
    + sized_goal Hshell.
  - exists [], []. cbn. rewrite !app_nil_r. repeat split; constructor.
  - do 2 eexists. split; [reflexivity|]. split; [reflexivity|].
    split; [|split]; (constructor; [|constructor]).
    + apply lead_of_sized. cbn. lia.
    + record_goal.
    + sized_goal Hshell.
  - do 2 eexists. split; [reflexivity|]. split; [reflexivity|].
    split; [constructor|]. split; (constructor; [|constructor]).
    + record_goal.
    + sized_goal Hshell.
  - do 2 eexists. split; [reflexivity|]. split; [reflexivity|].
    split; [|split]; (constructor; [|constructor]).
    + apply lead_of_sized. apply str_take_length.
    + record_goal.
    + sized_goal Hshell.
  - do 2 eexists. split; [reflexivity|]. split; [reflexivity|].
    split; [constructor|]. split; (constructor; [|constructor]).
    + record_goal.
    + sized_goal Hshell.
Qed.

Lemma run_lists_well_formed env cred subreddits keywords cap min_score :
  let s := track_leads_function env cred subreddits keywords cap min_score in
  Forall lead_sized (all_leads s) /\
  Forall (record_ok min_score) (all_posts_explored s) /\
  Forall record_sized (all_posts_explored s).
Proof.
  apply (run_invariant env cred subreddits keywords cap min_score
           (fun s => Forall lead_sized (all_leads s) /\
                     Forall (record_ok min_score) (all_posts_explored s) /\
                     Forall record_sized (all_posts_explored s))).
  - repeat split; constructor.
  - intros s n ps evs Hs. exact Hs.
  - intros subreddit p s (Hl & Hr & Hz).
    destruct (post_step_added _ _ _ _ _ _ _
                (analyze_post_step env keywords min_score subreddit p s))
      as (leads & records & -> & -> & Hl' & Hr' & Hz').
    repeat split; apply Forall_app; split; assumption.
Qed.

(** X4. In every run the flags of every explored record agree: the
    record is marked as analyzed exactly when it matched a keyword; it
    has a score exactly when it has a rationale, and none if it matched
    no keyword; a record flagged as a lead has a score; and a record
    with a score is flagged as a lead exactly when the score reaches
    [min_score]. *)
Theorem explored_flags_consistent env cred subreddits keywords cap min_score :
  Forall (record_ok min_score)
         (all_posts_explored
            (track_leads_function env cred subreddits keywords cap min_score)).
Proof. apply run_lists_well_formed. Qed.

(** X5. In every run the texts are cut to size: the content preview of a
    record has at most 200 characters and its rationale at most 400; the
    content of a lead has at most 300 characters and its rationale at
    most 400. *)
Theorem texts_cut_to_size env cred subreddits keywords cap min_score :
  let s := track_leads_function env cred subreddits keywords cap min_score in
  Forall record_sized (all_posts_explored s) /\ Forall lead_sized (all_leads s).
Proof.
  pose proof (run_lists_well_formed env cred subreddits keywords cap min_score)
    as (Hl & _ & Hz).
  split; assumption.
Qed.

(** ** Subreddit by subreddit *)

Lemma run_invariant_sub env cred subreddits keywords cap min_score
      (P : St -> Prop) :
  P init_st ->
  (forall subreddit s,
      P s -> P (snd (search_subreddit env keywords min_score cap subreddit s))) ->
  P (track_leads_function env cred subreddits keywords cap min_score).
Proof.
  intros Hinit Hsub. unfold track_leads_function.
  generalize init_st Hinit. clear Hinit.
  induction subreddits as [|subreddit rest IH]; intros s Hs; [exact Hs|].
  rewrite for_each_cons by apply search_subreddit_run.
  apply IH, Hsub, Hs.
Qed.

Lemma stage_events_fetch r subreddit limit answer :
  limit <= query_max ->
  Forall fetch_event (stage_events r subreddit limit answer).
Proof.
  intros Hle. destruct answer; simpl; repeat constructor; assumption.
Qed.

Lemma more_posts_events env r subreddit cap s :
  exists evs,
    events (snd (more_posts env r subreddit cap s)) = (events s ++ evs)%list /\
    Forall fetch_event evs.
Proof.
  rewrite more_posts_run. cbn. eexists. split; [reflexivity|].
  apply stage_events_fetch. apply Z.le_min_r.
Qed.

(** The Collector adds to the trace its own events only. *)
Lemma fetch_posts_events env subreddit cap s :
  exists evs,
    events (snd (fetch_posts env subreddit cap s)) = (events s ++ evs)%list /\
    Forall fetch_event evs.
Proof.
  rewrite fetch_posts_run. cbv zeta. cbn [snd].
  set (s1 := with_posts s _ _).
  assert (H1 : exists evs, events s1 = (events s ++ evs)%list /\
                           Forall fetch_event evs).
  { subst s1. cbn. eexists. split; [reflexivity|].
    apply stage_events_fetch. apply Z.le_min_r. }
  assert (Hmore : forall r st,
             (exists evs, events st = (events s ++ evs)%list /\
                          Forall fetch_event evs) ->
             exists evs,
               events (snd (more_posts env r subreddit cap st))
               = (events s ++ evs)%list /\ Forall fetch_event evs).
  { intros r st (evs & Hst & Hevs).
    destruct (more_posts_events env r subreddit cap st) as (evs' & -> & Hevs').
    exists (evs ++ evs')%list. rewrite Hst, app_assoc. split; [reflexivity|].
    apply Forall_app. split; assumption. }
  destruct (cap >? query_max); cbn [andb]; [|exact H1].
  destruct (Py.len _ <? cap); auto.
Qed.

(** One subreddit, with what it adds to the trace: a warning if its
    handle cannot be obtained, the events of the Collector otherwise. *)
Lemma search_subreddit_cases env keywords min_score cap subreddit s :
  (exists w,
      snd (search_subreddit env keywords min_score cap subreddit s)
      = fetched s 0 (all_posts_from_subreddit s) (events s ++ [EvWarning w]))
  \/
  (exists out ps evs,
      Forall fetch_event evs /\
      snd (search_subreddit env keywords min_score cap subreddit s)
      = snd (for_each out (analyze_post env keywords min_score subreddit)
                      (fetched s (Py.len out) ps (events s ++ evs)))).
Proof.
  destruct (search_subreddit_run env keywords min_score cap subreddit s)
    as [_ [[_ ->] | [_ (out & ps & evs & Hfetch & ->)]]].
  - left. eexists. reflexivity.
  - right. destruct (fetch_posts_events env subreddit cap s) as (fevs & Hev & Hf).
    rewrite Hfetch in Hev. cbn in Hev. subst evs.
    exists out, ps, fevs. split; [exact Hf | reflexivity].
Qed.

(** What holds at the start, survives the events of the Collector and
    the counting of the fetched posts, and survives every iteration over
    a post, holds of the result. *)
Lemma run_invariant_events env cred subreddits keywords cap min_score
      (P : St -> Prop) :
  P init_st ->
  (forall s n ps evs,
      Forall fetch_event evs -> P s -> P (fetched s n ps (events s ++ evs))) ->
  (forall subreddit p s,
      P s -> P (snd (analyze_post env keywords min_score subreddit p s))) ->
  P (track_leads_function env cred subreddits keywords cap min_score).
Proof.
  intros Hinit Hframe Hpost. apply run_invariant_sub; [exact Hinit|].
  intros subreddit s Hs.
  destruct (search_subreddit_cases env keywords min_score cap subreddit s)
    as [(w & ->) | (out & ps & evs & Hevs & ->)].
  - apply Hframe; [|exact Hs]. repeat constructor.
  - apply analyze_loop; [apply Hpost|]. apply Hframe; assumption.
Qed.

(** ** Counters *)

Lemma post_step_counts env keywords min_score subreddit post s s' :
  post_step env keywords min_score subreddit post s s' ->
  total_posts (stats s') = total_posts (stats s) /\
  posts_analyzed (stats s) <= posts_analyzed (stats s') <=
    posts_analyzed (stats s) + 1 /\
  Py.len (all_leads s') - Py.len (all_leads s)
    <= posts_analyzed (stats s') - posts_analyzed (stats s) /\
  0 <= leads_found (stats s') - leads_found (stats s)
    <= Py.len (all_leads s') - Py.len (all_leads s) /\
  Py.len (all_posts_explored s') <= Py.len (all_posts_explored s) + 1.
Proof.
  intros H. inversion H; subst;
    cbn [commit all_leads all_posts_explored stats total_posts posts_analyzed
         leads_found];
    rewrite ?len_app; unfold Py.len; cbn [List.length]; lia.
Qed.

Lemma analyze_loop_counts env keywords min_score subreddit ps : forall s,
  let s' := snd (for_each ps (analyze_post env keywords min_score subreddit) s) in
  total_posts (stats s') = total_posts (stats s) /\
  posts_analyzed (stats s) <= posts_analyzed (stats s') <=
    posts_analyzed (stats s) + Py.len ps /\
  Py.len (all_leads s') - Py.len (all_leads s)
    <= posts_analyzed (stats s') - posts_analyzed (stats s) /\
  0 <= leads_found (stats s') - leads_found (stats s)
    <= Py.len (all_leads s') - Py.len (all_leads s) /\
  Py.len (all_posts_explored s') <= Py.len (all_posts_explored s) + Py.len ps.
Proof.
  induction ps as [|p ps IH]; intros s; cbv zeta.
  - cbn. unfold Py.len. cbn. lia.
  - rewrite for_each_cons by apply analyze_post_returns.
    pose proof (post_step_counts _ _ _ _ _ _ _
                  (analyze_post_step env keywords min_score subreddit p s)) as H1.
    specialize (IH (snd (analyze_post env keywords min_score subreddit p s))).
    cbv zeta in IH. unfold Py.len in *. cbn [List.length].
    rewrite Nat2Z.inj_succ. lia.
Qed.

(** In every run the counters and the lists are ordered: the counter
    of leads is at most the number of leads returned, which is at most
    the counter of analyzed posts, which is at most the counter of
    fetched posts; and there are at most as many explored records as
    fetched posts. *)
Lemma counters_bounds env cred subreddits keywords cap min_score :
  counters_ordered
    (track_leads_function env cred subreddits keywords cap min_score).
Proof.
  apply run_invariant_sub.
  - unfold counters_ordered, Py.len. cbn. lia.
  - intros subreddit s Hs. unfold counters_ordered in *.
    destruct (search_subreddit_cases env keywords min_score cap subreddit s)
      as [(w & ->) | (out & ps & evs & _ & ->)].
    + cbn. rewrite Z.add_0_r. exact Hs.
    + pose proof (analyze_loop_counts env keywords min_score subreddit out
                    (fetched s (Py.len out) ps (events s ++ evs))) as H.
      cbv zeta in H. cbn [fetched all_leads all_posts_explored stats total_posts
                          posts_analyzed leads_found] in H.
      lia.
Qed.

(** X6. In every run the counters and the lists are ordered: the counter
    of leads is at most the number of leads returned, which is at most
    the counter of analyzed posts, which is at most the counter of
    fetched posts; and there are at most as many explored records as
    fetched posts. *)
Theorem counters_ordered_run env cred subreddits keywords cap min_score :
  counters_ordered
    (track_leads_function env cred subreddits keywords cap min_score).
Proof. apply counters_bounds. Qed.

(** ** The trace *)

Lemma post_step_trace env keywords min_score subreddit post s s' :
  post_step env keywords min_score subreddit post s s' ->
  exists evs records,
    events s' = (events s ++ evs)%list /\
    all_posts_explored s' = (all_posts_explored s ++ records)%list /\
    Forall (fun e => is_listing e = false) evs /\
    List.length (filter is_agent_run evs)
    = List.length (filter PostInfo.ai_analyzed records).
Proof.
  intros H. inversion H; subst.
  - exists [], []. rewrite !app_nil_r. repeat split. constructor.
  - do 2 eexists. split; [reflexivity|]. split; [reflexivity|].
    split; [constructor | reflexivity].
  - exists [], []. cbn. rewrite !app_nil_r. repeat split. constructor.
  - do 2 eexists. split; [reflexivity|]. split; [reflexivity|].
    split; [repeat constructor | reflexivity].
  - do 2 eexists. split; [reflexivity|]. split; [reflexivity|].
    split; [repeat constructor | reflexivity].
  - do 2 eexists. split; [reflexivity|]. split; [reflexivity|].
    split; [repeat constructor | reflexivity].
  - do 2 eexists. split; [reflexivity|]. split; [reflexivity|].
    split; [repeat constructor | reflexivity].
Qed.

Lemma fetch_events_no_agent evs :
  Forall fetch_event evs -> filter is_agent_run evs = [].
Proof.
  induction 1 as [|e evs [He _] _ IH]; simpl; [reflexivity|].
  rewrite He. exact IH.
Qed.

(** X7. In every run the agent is called once for each record marked as
    analyzed, and not otherwise: the trace holds as many calls of the
    agent as the explored list holds analyzed records. *)
Theorem agent_called_once_per_analyzed_record env cred subreddits keywords cap
        min_score :
  agent_calls_recorded
    (track_leads_function env cred subreddits keywords cap min_score).
Proof.
  apply run_invariant_events; unfold agent_calls_recorded.
  - reflexivity.
  - intros s n ps evs Hevs Hs. cbn.
    rewrite filter_app, (fetch_events_no_agent evs Hevs), app_nil_r. exact Hs.
  - intros subreddit p s Hs.
    destruct (post_step_trace _ _ _ _ _ _ _
                (analyze_post_step env keywords min_score subreddit p s))
      as (evs & records & -> & -> & _ & Hcount).
    rewrite !filter_app, !length_app. lia.
Qed.

(** X8. In every run no query of the content API asks for more than
    [query_max] posts. *)
Theorem listing_limits_within_query_max env cred subreddits keywords cap
        min_score :
  Forall within_query_max
         (events (track_leads_function env cred subreddits keywords cap
                                       min_score)).
Proof.
  apply (run_invariant_events env cred subreddits keywords cap min_score
           (fun s => Forall within_query_max (events s))).
  - constructor.
  - intros s n ps evs Hevs Hs. cbn. apply Forall_app. split; [exact Hs|].
    eapply Forall_impl; [|exact Hevs]. intros e [_ He]. exact He.
  - intros subreddit p s Hs.
    destruct (post_step_trace _ _ _ _ _ _ _
                (analyze_post_step env keywords min_score subreddit p s))
      as (evs & records & -> & _ & Hnl & _).
    apply Forall_app. split; [exact Hs|].
    eapply Forall_impl; [|exact Hnl].
    intros [] He; cbn in *; try exact I. discriminate He.
Qed.

(** ** The explored list follows the fetched posts *)

Lemma post_step_record env keywords min_score subreddit post s s' :
  post_step env keywords min_score subreddit post s s' ->
  if recorded env keywords subreddit post
  then exists r, all_posts_explored s' = (all_posts_explored s ++ [r])%list /\
                 record_of env keywords subreddit post r
  else all_posts_explored s' = all_posts_explored s.
Proof.
  intros H. unfold recorded, record_of.
  inversion H; subst;
    repeat match goal with
           | Hr : read_fields _ _ = _ |- _ => rewrite Hr; clear Hr
           | Hm : matches _ _ _ = _ |- _ => rewrite Hm; revert Hm
           | Hp : prompt_of _ _ _ = _ |- _ => rewrite Hp; clear Hp
           end;
    cbn [negb andb]; try reflexivity; intros Hm;
    (eexists; split; [reflexivity|]; eexists; split; [reflexivity|];
     repeat split; cbn; congruence).
Qed.

(** X9. The loop over the posts of a subreddit appends to the explored
    list one record for each post that is not skipped, in the order of
    the posts: the record carries the title, the URL and the subreddit
    of its post and tells whether the post matched a keyword. *)
Theorem explored_follows_posts env keywords min_score subreddit ps s :
  exists records,
    all_posts_explored
      (snd (for_each ps (analyze_post env keywords min_score subreddit) s))
    = (all_posts_explored s ++ records)%list /\
    Forall2 (record_of env keywords subreddit)
            (filter (recorded env keywords subreddit) ps) records.
Proof.
  revert s. induction ps as [|p ps IH]; intros s.
  - exists []. cbn. rewrite app_nil_r. split; [reflexivity | constructor].
  - rewrite for_each_cons by apply analyze_post_returns.
    pose proof (post_step_record _ _ _ _ _ _ _
                  (analyze_post_step env keywords min_score subreddit p s)) as Hp.
    destruct (IH (snd (analyze_post env keywords min_score subreddit p s)))
      as (records & -> & Hrecords).
    cbn [filter]. destruct (recorded env keywords subreddit p).
    + destruct Hp as (r & -> & Hr). exists (r :: records).
      rewrite <- app_assoc. split; [reflexivity|]. constructor; assumption.
    + rewrite Hp. exists records. split; [reflexivity | assumption].
Qed.

(** ** Scored items *)

Lemma extract_score_unparseable min_score response_text :
  unparseable response_text ->
  extract_score min_score response_text = min_score.
Proof.
  intros [Hnone | (pre & line & post & Hsplit & Hpre & Hline & Hdigits)];
    unfold extract_score;
    rewrite (contains_split newline "Score:" eq_refl).
  - destruct (existsb _ _) eqn:Hex; [|reflexivity].
    apply existsb_exists in Hex as (l & Hin & Hl).
    specialize (Hnone l Hin). unfold score_label in Hnone. congruence.
  - rewrite Hsplit, existsb_app. simpl existsb.
    change (Py.contains "Score:") with (Py.contains score_label).
    rewrite Hline, orb_true_r.
    rewrite (filter_first _ pre line post Hpre Hline), Hdigits. reflexivity.
Qed.

(** A keyword-matched item for which the agent returns a text gets
    the score read off the text and the first 400 characters of the text
    as its rationale. If the score reaches [min_score] the record is
    flagged, the counter of leads grows by one and one lead with that
    score and that rationale is appended; otherwise the record is not
    flagged and no lead is appended. *)
Lemma scored_item_steps env keywords min_score subreddit post f prompt text s :
  read_fields env post = Some f ->
  matches keywords post f = true ->
  prompt_of subreddit post f = Some prompt ->
  agent_run env (List.length (events s)) prompt = AgentResponse (Some text) ->
  text <> "" ->
  let score := extract_score min_score text in
  let s' := snd (analyze_post env keywords min_score subreddit post s) in
  exists record,
    all_posts_explored s' = (all_posts_explored s ++ [record])%list /\
    PostInfo.ai_score record = Some score /\
    PostInfo.ai_analysis record = Some (Py.str_take 400 text) /\
    ((min_score <= score /\
      PostInfo.is_lead record = true /\
      leads_found (stats s') = leads_found (stats s) + 1 /\
      exists lead,
        all_leads s' = (all_leads s ++ [lead])%list /\
        Lead.relevance_score lead = score /\
        Lead.ai_analysis lead = Py.str_take 400 text)
     \/
     (score < min_score /\
      PostInfo.is_lead record = false /\
      leads_found (stats s') = leads_found (stats s) /\
      all_leads s' = all_leads s)).
Proof.
  intros Hread Hmatch Hprompt Hagent Htext score s'. subst score.
  pose proof (analyze_post_step env keywords min_score subreddit post s) as Hstep.
  fold s' in Hstep. clearbody s'.
  inversion Hstep; subst; repeat other_step; try congruence.
  - exfalso. match goal with Hc : _ \/ _ |- _ => destruct Hc; congruence end.
  - assert (text0 = text) by congruence. subst text0.
    eexists. split; [reflexivity|]. split; [reflexivity|].
    split; [reflexivity|]. left. split; [assumption|].
    split; [reflexivity|]. split; [reflexivity|].
    eexists. split; [reflexivity|]. split; reflexivity.
  - assert (text0 = text) by congruence. subst text0.
    eexists. split; [reflexivity|]. split; [reflexivity|].
    split; [reflexivity|]. right. split; [assumption|].
    split; [reflexivity|]. cbn. rewrite app_nil_r, Z.add_0_r.
    split; reflexivity.
Qed.

(** X10. A keyword-matched item for which the agent returns a text gets
    the score read off the text and the first 400 characters of the text
    as its rationale. If the score reaches [min_score] the record is
    flagged, the counter of leads grows by one and one lead with that
    score and that rationale is appended; otherwise the record is not
    flagged and no lead is appended. *)
Theorem scored_item env keywords min_score subreddit post f prompt text s :
  read_fields env post = Some f ->
  matches keywords post f = true ->
  prompt_of subreddit post f = Some prompt ->
  agent_run env (List.length (events s)) prompt = AgentResponse (Some text) ->
  text <> "" ->
  let score := extract_score min_score text in
  let s' := snd (analyze_post env keywords min_score subreddit post s) in
  exists record,
    all_posts_explored s' = (all_posts_explored s ++ [record])%list /\
    PostInfo.ai_score record = Some score /\
    PostInfo.ai_analysis record = Some (Py.str_take 400 text) /\
    ((min_score <= score /\
      PostInfo.is_lead record = true /\
      leads_found (stats s') = leads_found (stats s) + 1 /\
      exists lead,
        all_leads s' = (all_leads s ++ [lead])%list /\
        Lead.relevance_score lead = score /\
        Lead.ai_analysis lead = Py.str_take 400 text)
     \/
     (score < min_score /\
      PostInfo.is_lead record = false /\
      leads_found (stats s') = leads_found (stats s) /\
      all_leads s' = all_leads s)).
Proof.
  intros Hread Hmatch Hprompt Hagent Htext.
  exact (scored_item_steps env keywords min_score subreddit post f prompt text
           s Hread Hmatch Hprompt Hagent Htext).
Qed.

Lemma scored_item_witness :
  let s' := snd (analyze_post (env_scoring "Score: 5
Red Flags: student project") ["bi dashboard"] 7 "analytics" dashboard_post
                              init_st) in
  map PostInfo.ai_score (all_posts_explored s') = [Some 5] /\
  map PostInfo.is_lead (all_posts_explored s') = [false] /\
  all_leads s' = [].
Proof.
  destruct (scored_item
              (env_scoring "Score: 5
Red Flags: student project") ["bi dashboard"] 7 "analytics" dashboard_post
              dashboard_fields dashboard_prompt _ init_st
              eq_refl eq_refl eq_refl eq_refl)
    as (record & Hexp & Hscore & _ & [(Hle & _) | (_ & Hflag & _ & Hleads)]).
  - discriminate.
  - vm_compute in Hle. exfalso. apply Hle. reflexivity.
  - cbv zeta. rewrite Hexp, Hleads. cbn.
    rewrite Hscore, Hflag. repeat split.
Defined.

(** X11. A keyword-matched item whose response cannot be parsed, for want
    of a label or of a digit on the first labelled line, becomes a lead
    with the score [min_score], and its record is flagged and carries
    that score. *)
Theorem unparseable_response_accepted env keywords min_score subreddit post f
        prompt text s :
  read_fields env post = Some f ->
  matches keywords post f = true ->
  prompt_of subreddit post f = Some prompt ->
  agent_run env (List.length (events s)) prompt = AgentResponse (Some text) ->
  text <> "" ->
  unparseable text ->
  let s' := snd (analyze_post env keywords min_score subreddit post s) in
  exists record lead,
    all_posts_explored s' = (all_posts_explored s ++ [record])%list /\
    PostInfo.is_lead record = true /\
    PostInfo.ai_score record = Some min_score /\
    all_leads s' = (all_leads s ++ [lead])%list /\
    Lead.relevance_score lead = min_score /\
    leads_found (stats s') = leads_found (stats s) + 1.
Proof.
  intros Hread Hmatch Hprompt Hagent Htext Hun s'.
  destruct (scored_item_steps env keywords min_score subreddit post f prompt
              text s Hread Hmatch Hprompt Hagent Htext)
    as (record & Hexp & Hscore & _ & Hcases).
  fold s' in Hexp, Hcases.
  rewrite (extract_score_unparseable min_score text Hun) in *.
  destruct Hcases as [(_ & Hflag & Hfound & lead & Hleads & Hrel & _) | (Hlt & _)];
    [|lia].
  exists record, lead. repeat split; assumption.
Qed.

Lemma unparseable_response_accepted_witness :
  let s' := snd (analyze_post (env_scoring "Looks promising, worth a call.")
                              ["bi dashboard"] 9 "analytics" dashboard_post
                              init_st) in
  map Lead.relevance_score (all_leads s') = [9] /\
  map PostInfo.is_lead (all_posts_explored s') = [true].
Proof.
  destruct (unparseable_response_accepted
              (env_scoring "Looks promising, worth a call.")
              ["bi dashboard"] 9 "analytics" dashboard_post
              dashboard_fields dashboard_prompt _ init_st
              eq_refl eq_refl eq_refl eq_refl)
    as (record & lead & Hexp & Hflag & _ & Hleads & Hrel & _).
  - discriminate.
  - left. intros l [<- | []]. reflexivity.
  - cbv zeta. rewrite Hexp, Hleads. cbn.
    rewrite Hflag, Hrel. split; reflexivity.
Defined.

(** ** More on the Collector *)

Lemma stage_posts_extends answer acc :
  exists extra, stage_posts answer acc = (acc ++ extra)%list.
Proof.
  destruct answer as [l|]; simpl.
  - eexists. reflexivity.
  - exists []. rewrite app_nil_r. reflexivity.
Qed.

(** X12. With a cap of at most [query_max] the Collector makes one query,
    of the "new" ranking with the cap as its limit, and returns the
    answer cut at the cap, or nothing if the query raises; the other two
    rankings are not queried. *)
Theorem single_query_below_query_max env subreddit cap s :
  cap <= query_max ->
  let answer := listing env (List.length (events s)) New subreddit cap in
  let s' := snd (fetch_posts env subreddit cap s) in
  fst (fetch_posts env subreddit cap s)
  = Val (Py.slice_to (match answer with Some l => l | None => [] end) cap) /\
  filter is_listing (events s')
  = (filter is_listing (events s) ++ [EvListing New subreddit cap])%list.
Proof.
  intros Hcap answer s'. subst answer s'.
  rewrite fetch_posts_run. cbv zeta.
  assert (Hgt : (cap >? query_max) = false)
    by (rewrite Z.gtb_ltb; apply Z.ltb_ge; exact Hcap).
  rewrite Hgt. cbn [andb fst snd with_posts all_posts_from_subreddit events].
  rewrite (Z.min_l cap query_max Hcap). split; [reflexivity|].
  rewrite filter_app.
  destruct (listing env _ New subreddit cap); reflexivity.
Qed.

Lemma single_query_below_query_max_witness :
  fst (fetch_posts env_overlap "analytics" 2 init_st)
  = Val (numbered "p" 0 2)
  /\ events (snd (fetch_posts env_overlap "analytics" 2 init_st))
     = [EvListing New "analytics" 2].
Proof.
  destruct (single_query_below_query_max env_overlap "analytics" 2 init_st)
    as [Hout Hev]; [unfold query_max; lia|].
  split; [rewrite Hout; reflexivity|]. reflexivity.
Defined.

(** X13. Whatever the later stages do, the output of the Collector starts
    with the answer of the "new" ranking, cut at the cap; when that
    answer alone fills the cap, it is the whole output. *)
Theorem new_posts_come_first env subreddit cap s new_posts :
  0 <= cap ->
  listing env (List.length (events s)) New subreddit (Z.min cap query_max)
  = Some new_posts ->
  exists out rest,
    fst (fetch_posts env subreddit cap s) = Val out /\
    out = (firstn (Z.to_nat cap) new_posts ++ rest)%list /\
    (cap <= Py.len new_posts -> rest = []).
Proof.
  intros Hcap Hnew. rewrite fetch_posts_run. cbv zeta. rewrite Hnew.
  set (s1 := with_posts s new_posts _).
  assert (Hacc : exists extra,
             all_posts_from_subreddit
               (if (cap >? query_max)
                   && (Py.len (all_posts_from_subreddit
                                 (if cap >? query_max
                                  then snd (more_posts env Top subreddit cap s1)
                                  else s1)) <? cap)
                then snd (more_posts env Hot subreddit cap
                            (if cap >? query_max
                             then snd (more_posts env Top subreddit cap s1)
                             else s1))
                else if cap >? query_max
                     then snd (more_posts env Top subreddit cap s1) else s1)
             = (new_posts ++ extra)%list).
  { destruct (cap >? query_max); cbn [andb].
    - rewrite (more_posts_run env Top subreddit cap s1).
      cbn [snd with_posts all_posts_from_subreddit].
      destruct (stage_posts_extends
                  (listing env (List.length (events s1)) Top subreddit
                     (Z.min (cap - Py.len (all_posts_from_subreddit s1))
                            query_max))
                  (all_posts_from_subreddit s1)) as (e1 & ->).
      destruct (Py.len _ <? cap).
      + rewrite more_posts_run.
        cbn [snd with_posts all_posts_from_subreddit].
        match goal with
        | |- context [stage_posts ?a ?acc] =>
            destruct (stage_posts_extends a acc) as (e2 & ->)
        end.
        subst s1. cbn [with_posts all_posts_from_subreddit].
        rewrite <- app_assoc. eexists. reflexivity.
      + subst s1. cbn [with_posts all_posts_from_subreddit].
        eexists. reflexivity.
    - exists []. subst s1. cbn. rewrite app_nil_r. reflexivity. }
  destruct Hacc as (extra & ->). cbn [fst].
  unfold Py.slice_to. destruct (Z.leb_spec 0 cap) as [_|]; [|lia].
  rewrite firstn_app. do 2 eexists. split; [reflexivity|].
  split; [reflexivity|].
  intros Hfull. unfold Py.len in Hfull.
  replace (Z.to_nat cap - List.length new_posts)%nat with 0%nat by lia.
  reflexivity.
Qed.

Lemma new_posts_come_first_witness :
  exists rest,
    fst (fetch_posts env_overlap "analytics" 1500 init_st)
    = Val (numbered "p" 0 3 ++ rest)%list.
Proof.
  destruct (new_posts_come_first env_overlap "analytics" 1500 init_st
              (numbered "p" 0 3))
    as (out & rest & Hout & -> & _); [lia | reflexivity |].
  exists rest. exact Hout.
Defined.

(** X14. When every query of the content API for a subreddit raises, the
    Collector returns no post and each query made is followed by its
    warning: one query below [query_max], the three of them above. *)
Theorem all_queries_fail env subreddit cap s :
  (forall t r k, listing env t r subreddit k = None) ->
  fetch_posts env subreddit cap s
  = (Val [],
     with_posts s []
       (events s ++
        if cap >? query_max
        then [EvListing New subreddit query_max;
              EvWarning (WarnListing New subreddit);
              EvListing Top subreddit query_max;
              EvWarning (WarnListing Top subreddit);
              EvListing Hot subreddit query_max;
              EvWarning (WarnListing Hot subreddit)]
        else [EvListing New subreddit cap;
              EvWarning (WarnListing New subreddit)])).
Proof.
  intros Hdown. rewrite fetch_posts_run. cbv zeta. rewrite Hdown.
  assert (Hslice : @Py.slice_to Post.t [] cap = [])
    by (unfold Py.slice_to; destruct (0 <=? cap); apply firstn_nil).
  destruct (Z.gtb_spec cap query_max) as [Hgt|Hle]; cbn [andb].
  - assert (Hlt : (0 <? cap) = true)
      by (apply Z.ltb_lt; unfold query_max in *; lia).
    rewrite more_posts_run, Hdown.
    cbn [snd with_posts all_posts_from_subreddit events stage_posts
         stage_events].
    change (Py.len (@nil Post.t)) with 0. rewrite Hlt.
    rewrite more_posts_run, Hdown.
    cbn [snd with_posts all_posts_from_subreddit events stage_posts
         stage_events].
    change (Py.len (@nil Post.t)) with 0.
    rewrite Z.sub_0_r, (Z.min_r cap query_max), Hslice by lia.
    unfold with_posts. cbn. rewrite <- !app_assoc. reflexivity.
  - cbn [snd with_posts all_posts_from_subreddit events stage_posts
         stage_events].
    rewrite (Z.min_l cap query_max), Hslice by lia. reflexivity.
Qed.

Lemma all_queries_fail_witness :
  fst (fetch_posts env_api_down "analytics" 1500 init_st) = Val [] /\
  List.length (events (snd (fetch_posts env_api_down "analytics" 1500 init_st)))
  = 6%nat.
Proof.
  rewrite (all_queries_fail env_api_down "analytics" 1500 init_st
             (fun _ _ _ => eq_refl)).
  split; reflexivity.
Defined.

(** ** Sources that cannot be reached, keyword lists that are empty *)

(** X15. A subreddit whose handle cannot be obtained costs a warning and
    nothing else: its iteration returns normally, leaves the leads, the
    explored records and the three counters as they were, and queries
    neither the content API nor the agent. *)
Theorem unreachable_subreddit_skipped env keywords min_score cap subreddit s :
  open_subreddit env (List.length (events s)) subreddit = false ->
  let s' := snd (search_subreddit env keywords min_score cap subreddit s) in
  fst (search_subreddit env keywords min_score cap subreddit s) = Val tt /\
  all_leads s' = all_leads s /\
  all_posts_explored s' = all_posts_explored s /\
  stats s' = stats s /\
  events s' = (events s ++ [EvWarning (WarnSubreddit subreddit)])%list.
Proof.
  intros Hclosed s'. subst s'.
  destruct (search_subreddit_run env keywords min_score cap subreddit s)
    as [Hret [[_ ->] | [Hopen _]]]; [|congruence].
  split; [exact Hret|]. rewrite fetched_nothing. repeat split.
Qed.

Lemma unreachable_subreddit_skipped_witness :
  events (snd (search_subreddit env_unreachable ["kpi tracking"] 7 50
                                "analytics" init_st))
  = [EvWarning (WarnSubreddit "analytics")].
Proof.
  destruct (unreachable_subreddit_skipped env_unreachable ["kpi tracking"] 7 50
              "analytics" init_st eq_refl) as (_ & _ & _ & _ & Hev).
  exact Hev.
Defined.

(** X16. A run without keywords calls the agent for no post and returns
    no lead: every explored record has its three flags unset and the
    counters of analyzed posts and of leads stay at zero. *)
Theorem no_keyword_no_analysis env cred subreddits cap min_score :
  let s := track_leads_function env cred subreddits [] cap min_score in
  all_leads s = [] /\
  filter is_agent_run (events s) = [] /\
  posts_analyzed (stats s) = 0 /\ leads_found (stats s) = 0 /\
  Forall (fun r => PostInfo.matched_keywords r = false /\
                   PostInfo.ai_analyzed r = false /\
                   PostInfo.is_lead r = false)
         (all_posts_explored s).
Proof.
  apply (run_invariant_events env cred subreddits [] cap min_score
           (fun s => all_leads s = [] /\
                     filter is_agent_run (events s) = [] /\
                     posts_analyzed (stats s) = 0 /\
                     leads_found (stats s) = 0 /\
                     Forall (fun r => PostInfo.matched_keywords r = false /\
                                      PostInfo.ai_analyzed r = false /\
                                      PostInfo.is_lead r = false)
                            (all_posts_explored s))).
  - repeat split. constructor.
  - intros s n ps evs Hevs (Hl & Hev & Ha & Hf & Hr). cbn.
    rewrite filter_app, Hev, (fetch_events_no_agent evs Hevs).
    repeat split; assumption.
  - intros subreddit p s (Hl & Hev & Ha & Hf & Hr).
    pose proof (analyze_post_step env [] min_score subreddit p s) as H.
    set (s' := snd _) in *. clearbody s'.
    inversion H; subst;
      try match goal with
          | Hm : matches [] _ _ = true |- _ => discriminate Hm
          end.
    + repeat split; assumption.
    + rewrite commit_nothing. cbn. repeat split; try assumption.
      apply Forall_app. split; [assumption|]. repeat constructor.
Qed.

(** ** The text areas of the form *)

Lemma split_free sep s : Py.has_char sep s = false -> Py.split sep s = [s].
Proof.
  induction s as [|c s IH]; simpl; intros H; [reflexivity|].
  apply orb_false_iff in H as [Hc Hs]. rewrite Hc, (IH Hs). reflexivity.
Qed.

Lemma split_app_sep sep x rest :
  Py.has_char sep x = false ->
  Py.split sep (x ++ String sep rest) = x :: Py.split sep rest.
Proof.
  induction x as [|c x IH]; simpl; intros H.
  - rewrite Ascii.eqb_refl. reflexivity.
  - apply orb_false_iff in H as [Hc Hx]. rewrite Hc, (IH Hx). reflexivity.
Qed.

Lemma split_join sep l :
  l <> [] ->
  Forall (fun e => Py.has_char sep e = false) l ->
  Py.split sep (PyText.join (String sep "") l) = l.
Proof.
  induction l as [|x l IH]; intros Hne Hfree; [contradiction|].
  apply Forall_cons_iff in Hfree as [Hx Hl].
  destruct l as [|y l].
  - simpl. apply split_free, Hx.
  - change (PyText.join (String sep "") (x :: y :: l))
      with (x ++ String sep (PyText.join (String sep "") (y :: l))).
    rewrite split_app_sep by exact Hx. rewrite IH; [reflexivity | discriminate | exact Hl].
Qed.

Lemma split_lines_free sep s :
  Forall (fun l => Py.has_char sep l = false) (Py.split sep s).
Proof.
  induction s as [|c s IH]; simpl; [repeat constructor|].
  destruct (Ascii.eqb c sep) eqn:Hc; [constructor; [reflexivity | exact IH]|].
  destruct (Py.split sep s) as [|l ls]; [repeat constructor; simpl; now rewrite Hc|].
  apply Forall_cons_iff in IH as [Hl Hls].
  constructor; [|exact Hls]. simpl. rewrite Hc, Hl. reflexivity.
Qed.

Lemma split_lines_chars p sep s :
  PyText.all_chars p s = true ->
  Forall (fun l => PyText.all_chars p l = true) (Py.split sep s).
Proof.
  induction s as [|c s IH]; simpl; intros H; [repeat constructor|].
  apply andb_true_iff in H as [Hc Hs]. specialize (IH Hs).
  destruct (Ascii.eqb c sep); [constructor; [reflexivity | exact IH]|].
  destruct (Py.split sep s) as [|l ls]; [repeat constructor; simpl; now rewrite Hc|].
  apply Forall_cons_iff in IH as [Hl Hls].
  constructor; [|exact Hls]. simpl. rewrite Hc, Hl. reflexivity.
Qed.

Lemma lstrip_blank s : PyText.all_chars PyText.isspace s = true -> PyText.lstrip s = "".
Proof.
  induction s as [|c s IH]; simpl; intros H; [reflexivity|].
  apply andb_true_iff in H as [Hc Hs]. rewrite Hc. apply IH, Hs.
Qed.

Lemma lstrip_head s :
  PyText.lstrip s = "" \/
  exists c t, PyText.lstrip s = String c t /\ PyText.isspace c = false.
Proof.
  induction s as [|c s IH]; simpl; [left; reflexivity|].
  destruct (PyText.isspace c) eqn:Hc; [exact IH|].
  right. exists c, s. split; [reflexivity | exact Hc].
Qed.

Lemma rstrip_head c t :
  PyText.isspace c = false -> exists t', PyText.rstrip (String c t) = String c t'.
Proof.
  intros Hc. simpl. destruct (PyText.rstrip t); [rewrite Hc|]; eexists; reflexivity.
Qed.

Lemma rstrip_idempotent s : PyText.rstrip (PyText.rstrip s) = PyText.rstrip s.
Proof.
  induction s as [|c s IH]; [reflexivity|]. simpl.
  destruct (PyText.rstrip s) as [|d r] eqn:Hr.
  - destruct (PyText.isspace c) eqn:Hc; [reflexivity|]. simpl. rewrite Hc. reflexivity.
  - change (PyText.rstrip (String c (String d r)))
      with (match PyText.rstrip (String d r) with
            | "" => if PyText.isspace c then "" else String c ""
            | String a b => String c (String a b)
            end).
    rewrite IH. reflexivity.
Qed.

Lemma strip_idempotent s : PyText.strip (PyText.strip s) = PyText.strip s.
Proof.
  unfold PyText.strip.
  destruct (lstrip_head s) as [-> | (c & t & -> & Hc)]; [reflexivity|].
  destruct (rstrip_head c t Hc) as (t' & Ht).
  rewrite Ht. simpl PyText.lstrip. rewrite Hc, <- Ht. apply rstrip_idempotent.
Qed.

Lemma lstrip_chars c s :
  Py.has_char c s = false -> Py.has_char c (PyText.lstrip s) = false.
Proof.
  induction s as [|a s IH]; simpl; intros H; [reflexivity|].
  destruct (PyText.isspace a); [|exact H].
  apply orb_false_iff in H as [_ H]. apply IH, H.
Qed.

Lemma rstrip_chars c s :
  Py.has_char c s = false -> Py.has_char c (PyText.rstrip s) = false.
Proof.
  induction s as [|a s IH]; simpl; intros H; [reflexivity|].
  apply orb_false_iff in H as [Ha Hs]. specialize (IH Hs).
  destruct (PyText.rstrip s) as [|d r].
  - destruct (PyText.isspace a); simpl; [reflexivity|]. rewrite Ha. reflexivity.
  - simpl in *. rewrite Ha. exact IH.
Qed.

(** X17. Every entry read from a text area is clean: it is not empty,
    stripping it again changes nothing, and it holds no line break. *)
Theorem parse_lines_clean input : Forall clean_entry (parse_lines input).
Proof.
  unfold parse_lines. apply Forall_map, Forall_forall.
  intros l Hl. apply filter_In in Hl as [Hin Hne].
  unfold nonempty in Hne. apply negb_true_iff, String.eqb_neq in Hne.
  repeat split; [exact Hne | apply strip_idempotent|].
  unfold PyText.strip. apply rstrip_chars, lstrip_chars.
  pose proof (split_lines_free newline input) as Hfree.
  rewrite Forall_forall in Hfree. apply Hfree, Hin.
Qed.

(** X18. Clean entries written one per line are read back as they are:
    the default lists of the form are what the page starts from, and
    what was read from a text area is read again from its lines. *)
Theorem parse_lines_round_trip lines :
  Forall clean_entry lines ->
  parse_lines (text_area_value lines) = lines.
Proof.
  intros Hclean. unfold parse_lines, text_area_value.
  destruct lines as [|x lines]; [reflexivity|].
  rewrite split_join; [|discriminate|].
  2:{ eapply Forall_impl; [|exact Hclean]. intros e (_ & _ & He). exact He. }
  induction Hclean as [|e es (Hne & Hstrip & _) _ IH]; [reflexivity|].
  cbn [filter map]. rewrite Hstrip.
  replace (nonempty e) with true
    by (unfold nonempty; apply String.eqb_neq in Hne; rewrite Hne; reflexivity).
  cbn [map]. rewrite Hstrip, IH. reflexivity.
Qed.

Lemma parse_lines_round_trip_witness :
  parse_lines (text_area_value default_subreddits) = default_subreddits /\
  parse_lines (text_area_value default_keywords) = default_keywords.
Proof.
  split; apply parse_lines_round_trip;
    repeat (constructor; [repeat split; [discriminate | reflexivity ..]|]);
    constructor.
Defined.

Lemma parse_lines_blank input :
  PyText.all_chars PyText.isspace input = true -> parse_lines input = [].
Proof.
  intros Hblank. unfold parse_lines.
  pose proof (split_lines_chars _ newline input Hblank) as Hlines.
  induction Hlines as [|l ls Hl _ IH]; [reflexivity|].
  cbn [filter].
  replace (PyText.strip l) with ""
    by (unfold PyText.strip; rewrite (lstrip_blank l Hl); reflexivity).
  exact IH.
Qed.

(** X19. With the credentials filled in, a text area of subreddits that
    holds nothing but white space stops the search with the error of the
    missing subreddit, and so does, for the keywords, a text area of
    keywords that holds nothing else while a subreddit is given: the
    session is left as it was and nothing is queried. *)
Theorem blank_text_area_rejected env session cred subreddits_input
        keywords_input posts_per_subreddit min_relevance_score :
  forallb nonempty
    [openai_api_key cred; reddit_client_id cred; reddit_client_secret cred;
     reddit_username cred; reddit_password cred] = true ->
  (PyText.all_chars PyText.isspace subreddits_input = true ->
   submit_form env session cred subreddits_input keywords_input
               posts_per_subreddit min_relevance_score
   = (session, [EvError ErrNoSubreddit]))
  /\ (parse_lines subreddits_input <> [] ->
      PyText.all_chars PyText.isspace keywords_input = true ->
      submit_form env session cred subreddits_input keywords_input
                  posts_per_subreddit min_relevance_score
      = (session, [EvError ErrNoKeyword])).
Proof.
  intros Hcred. unfold submit_form, search_button_handler.
  rewrite Hcred. cbn [negb]. split.
  - intros Hblank. rewrite (parse_lines_blank _ Hblank). reflexivity.
  - intros Hsubs Hblank. rewrite (parse_lines_blank _ Hblank).
    destruct (parse_lines subreddits_input); [contradiction | reflexivity].
Qed.

Lemma blank_text_area_rejected_witness :
  submit_form env_api_down empty_session sample_cred "  
	" "kpi tracking" 50 7
  = (empty_session, [EvError ErrNoSubreddit]).
Proof.
  apply (blank_text_area_rejected env_api_down empty_session sample_cred
           "  
	" "kpi tracking" 50 7 eq_refl).
  reflexivity.
Defined.

(** ** The dashboard tab *)

Section DictFacts.

Context {K : Type}.
Variable key_eqb : K -> K -> bool.
Hypothesis key_eqb_eq : forall x y, key_eqb x y = true <-> x = y.

Lemma key_eqb_refl x : key_eqb x x = true.
Proof. apply key_eqb_eq. reflexivity. Qed.

Lemma dict_get_set d k v k' default :
  dict_get key_eqb (dict_set key_eqb d k v) k' default
  = if key_eqb k k' then v else dict_get key_eqb d k' default.
Proof.
  induction d as [|[k0 v0] d IH]; simpl.
  - reflexivity.
  - destruct (key_eqb k0 k) eqn:H0; simpl.
    + apply key_eqb_eq in H0. subst k0.
      destruct (key_eqb k k'); reflexivity.
    + destruct (key_eqb k0 k') eqn:H1; [|exact IH].
      apply key_eqb_eq in H1. subst k0.
      destruct (key_eqb k k') eqn:H2; [|reflexivity].
      apply key_eqb_eq in H2. subst k'. rewrite key_eqb_refl in H0.
      discriminate.
Qed.

Lemma dict_total_set d k v :
  dict_total (dict_set key_eqb d k v)
  = dict_total d - dict_get key_eqb d k 0 + v.
Proof.
  induction d as [|[k0 v0] d IH]; simpl; [lia|].
  destruct (key_eqb k0 k); simpl; lia.
Qed.

Lemma dict_keys_set d k v k' :
  In k' (map fst (dict_set key_eqb d k v)) <-> k' = k \/ In k' (map fst d).
Proof.
  induction d as [|[k0 v0] d IH]; simpl; [intuition|].
  destruct (key_eqb k0 k) eqn:H0; simpl.
  - apply key_eqb_eq in H0. subst k0. intuition.
  - rewrite IH. intuition.
Qed.

Lemma dict_keys_set_nodup d k v :
  NoDup (map fst d) -> NoDup (map fst (dict_set key_eqb d k v)).
Proof.
  induction d as [|[k0 v0] d IH]; simpl; intros H.
  - repeat constructor. intros [].
  - apply NoDup_cons_iff in H as [Hnotin Hnd].
    destruct (key_eqb k0 k) eqn:H0; simpl.
    + constructor; assumption.
    + constructor; [|apply IH, Hnd].
      rewrite dict_keys_set. intros [-> | Hin]; [|contradiction].
      rewrite key_eqb_refl in H0. discriminate.
Qed.

Variable A : Type.
Variable key : A -> K.

Let step (d : list (K * Z)) (x : A) : list (K * Z) :=
  dict_set key_eqb d (key x) (dict_get key_eqb d (key x) 0 + 1).

Lemma count_fold l : forall d,
  (forall k, dict_get key_eqb (fold_left step l d) k 0
             = dict_get key_eqb d k 0
               + Py.len (filter (fun x => key_eqb (key x) k) l)) /\
  dict_total (fold_left step l d) = dict_total d + Py.len l /\
  (NoDup (map fst d) -> NoDup (map fst (fold_left step l d))) /\
  (forall k, In k (map fst (fold_left step l d))
             <-> In k (map fst d) \/ In k (map key l)).
Proof.
  induction l as [|x l IH]; intros d.
  - cbn [fold_left filter map]. unfold Py.len. cbn [List.length].
    split; [intros k; lia|]. split; [lia|]. split; [intros H; exact H|].
    intros k. cbn [In]. tauto.
  - cbn [fold_left]. destruct (IH (step d x)) as (Hget & Htot & Hnd & Hkeys).
    repeat split.
    + intros k. rewrite Hget. unfold step. rewrite dict_get_set.
      cbn [filter]. destruct (key_eqb (key x) k) eqn:Hk.
      * apply key_eqb_eq in Hk. subst k. unfold Py.len. cbn [List.length].
        lia.
      * reflexivity.
    + rewrite Htot. unfold step. rewrite dict_total_set.
      unfold Py.len. cbn [List.length]. lia.
    + intros Hd. apply Hnd. apply dict_keys_set_nodup, Hd.
    + rewrite Hkeys. unfold step. rewrite dict_keys_set. cbn [map In].
      intuition.
    + rewrite Hkeys. unfold step. rewrite dict_keys_set. cbn [map In].
      intuition.
Qed.

Lemma count_by_spec l :
  (forall k, dict_get key_eqb (count_by key_eqb key l) k 0
             = Py.len (filter (fun x => key_eqb (key x) k) l)) /\
  dict_total (count_by key_eqb key l) = Py.len l /\
  NoDup (map fst (count_by key_eqb key l)) /\
  (forall k, In k (map fst (count_by key_eqb key l)) <-> In k (map key l)).
Proof.
  destruct (count_fold l []) as (Hget & Htot & Hnd & Hkeys).
  split; [intros k; exact (Hget k)|]. split; [exact Htot|].
  split; [apply Hnd; constructor|].
  intros k. split.
  - intros Hin. apply Hkeys in Hin as [[] | Hin]. exact Hin.
  - intros Hin. apply Hkeys. right. exact Hin.
Qed.

End DictFacts.

(** X20. The two charts of the dashboard count every lead once: the bar
    of a subreddit is as high as there are leads of that subreddit, the
    bar of a score as high as there are leads with that score, a
    subreddit or a score has one bar at most, one that no lead has has
    none (a height of zero), and the bars of either chart add up to the
    number of leads. *)
Theorem lead_distribution leads :
  (forall name,
      dict_get String.eqb (subreddit_counts leads) name 0
      = Py.len (filter (fun l => String.eqb (Lead.subreddit l) name) leads)) /\
  (forall score,
      dict_get Z.eqb (score_counts leads) score 0
      = Py.len (filter (fun l => Lead.relevance_score l =? score) leads)) /\
  dict_total (subreddit_counts leads) = Py.len leads /\
  dict_total (score_counts leads) = Py.len leads /\
  NoDup (map fst (subreddit_counts leads)) /\
  NoDup (map fst (score_counts leads)).
Proof.
  destruct (count_by_spec String.eqb String.eqb_eq _ Lead.subreddit leads)
    as (Hget1 & Htot1 & Hnd1 & _).
  destruct (count_by_spec Z.eqb Z.eqb_eq _ Lead.relevance_score leads)
    as (Hget2 & Htot2 & Hnd2 & _).
  repeat split; assumption.
Qed.

(** X21. The chart by subreddit has as many bars as the dashboard counts
    subreddits. *)
Theorem subreddit_bars_match_metric leads :
  Py.len (subreddit_counts leads) = unique_subreddits leads.
Proof.
  destruct (count_by_spec String.eqb String.eqb_eq _ Lead.subreddit leads)
    as (_ & _ & Hnd & Hkeys).
  unfold unique_subreddits, Py.len. f_equal.
  rewrite <- (length_map fst (subreddit_counts leads)).
  apply Permutation_length, NoDup_Permutation.
  - exact Hnd.
  - apply NoDup_nodup.
  - intros name. rewrite nodup_In. apply Hkeys.
Qed.

(** X22. After a run whose threshold is 8 or more, the dashboard counts
    every lead as a high-quality one. *)
Theorem high_quality_all_leads env cred subreddits keywords cap min_score :
  8 <= min_score ->
  let leads :=
    all_leads (track_leads_function env cred subreddits keywords cap min_score) in
  high_quality leads = Py.len leads.
Proof.
  intros Hmin leads. unfold high_quality. f_equal.
  pose proof (all_leads_ok env cred subreddits keywords cap min_score) as Hok.
  fold leads in Hok. clearbody leads.
  induction Hok as [|l ls [Hl _] _ IH]; [reflexivity|].
  cbn [filter].
  replace (Lead.relevance_score l >=? 8) with true
    by (symmetry; apply Z.geb_le; lia).
  rewrite IH. reflexivity.
Qed.

Lemma high_quality_all_leads_witness :
  high_quality (all_leads (sample_run [dashboard_post] AgentRaises
                                      ["bi dashboard"] 8)) = 1.
Proof.
  unfold sample_run.
  rewrite (high_quality_all_leads (env_new [dashboard_post] AgentRaises)
             sample_cred ["analytics"] ["bi dashboard"] 10 8); [|lia].
  vm_compute. reflexivity.
Defined.

(** ** The leads tab *)

Section SortFacts.

Context {A : Type}.
Variable le : A -> A -> bool.

Lemma insert_sorted_perm x l : Permutation (PyText.insert_sorted le x l) (x :: l).
Proof.
  induction l as [|y l IH]; simpl; [reflexivity|].
  destruct (le x y); [reflexivity|].
  rewrite IH. apply perm_swap.
Qed.

Lemma sorted_perm l : Permutation (PyText.sorted le l) l.
Proof.
  induction l as [|x l IH]; simpl; [reflexivity|].
  rewrite insert_sorted_perm, IH. reflexivity.
Qed.

(** An element that fails the test does not disturb those that pass
    it; one that passes it goes before those that pass it, provided the
    order puts any two of them in either order. *)
Lemma insert_sorted_filter (p : A -> bool) x l :
  (forall a b, p a = true -> p b = true -> le a b = true) ->
  filter p (PyText.insert_sorted le x l) = filter p (x :: l).
Proof.
  intros Hclass. induction l as [|y l IH]; [reflexivity|].
  cbn [PyText.insert_sorted]. destruct (le x y) eqn:Hxy; [reflexivity|].
  cbn [filter] in *. rewrite IH.
  destruct (p x) eqn:Hx; [|reflexivity].
  destruct (p y) eqn:Hy; [|reflexivity].
  rewrite (Hclass x y Hx Hy) in Hxy. discriminate.
Qed.

Lemma sorted_stable (p : A -> bool) l :
  (forall a b, p a = true -> p b = true -> le a b = true) ->
  filter p (PyText.sorted le l) = filter p l.
Proof.
  intros Hclass. induction l as [|x l IH]; [reflexivity|].
  cbn [PyText.sorted fold_right].
  rewrite (insert_sorted_filter p x _ Hclass).
  cbn [filter]. fold (PyText.sorted le l). rewrite IH. reflexivity.
Qed.

Hypothesis le_total : forall a b, le a b = true \/ le b a = true.

Lemma insert_sorted_sorted x l :
  Sorted (fun a b => le a b = true) l ->
  Sorted (fun a b => le a b = true) (PyText.insert_sorted le x l).
Proof.
  induction 1 as [|y l Hl IH Hhd]; cbn [PyText.insert_sorted].
  - repeat constructor.
  - destruct (le x y) eqn:Hxy.
    + constructor; [constructor; assumption|]. constructor. exact Hxy.
    + constructor; [exact IH|].
      assert (Hyx : le y x = true)
        by (destruct (le_total x y) as [H|H]; [congruence | exact H]).
      destruct Hhd as [|z l' Hyz]; cbn [PyText.insert_sorted].
      * constructor. exact Hyx.
      * destruct (le x z); constructor; assumption.
Qed.

Lemma sorted_sorted l : Sorted (fun a b => le a b = true) (PyText.sorted le l).
Proof.
  induction l as [|x l IH]; [constructor|].
  apply insert_sorted_sorted, IH.
Qed.

End SortFacts.

Lemma string_leb_refl s : String.leb s s = true.
Proof. destruct (String.leb_total s s); assumption. Qed.

Lemma filter_by_subreddit_sub name leads l :
  In l (filter_by_subreddit name leads) -> In l leads.
Proof.
  unfold filter_by_subreddit. destruct (String.eqb name "All"); [auto|].
  intros H. apply filter_In in H as [H _]. exact H.
Qed.

Lemma filter_by_score_sub range leads l :
  In l (filter_by_score range leads) -> In l leads.
Proof.
  unfold filter_by_score.
  repeat match goal with
         | |- context [if ?b then _ else _] => destruct b
         end; auto; intros H; apply filter_In in H as [H _]; exact H.
Qed.

Lemma sort_leads_perm sort_by leads : Permutation (sort_leads sort_by leads) leads.
Proof.
  unfold sort_leads.
  repeat match goal with
         | |- context [if ?b then _ else _] => destruct b
         end; try apply sorted_perm. reflexivity.
Qed.

(** X23. The filters and the sort of the leads tab only hide and
    reorder: the leads shown are, up to their order, those that pass the
    two filters, each of them is a lead of the session, and with both
    filters on "All" every lead is shown. *)
Theorem filtered_leads_shown filter_subreddit filter_score sort_by leads :
  Permutation
    (filtered_leads filter_subreddit filter_score sort_by leads)
    (filter_by_score filter_score (filter_by_subreddit filter_subreddit leads))
  /\ (forall l, In l (filtered_leads filter_subreddit filter_score sort_by leads)
                -> In l leads)
  /\ Permutation (filtered_leads "All" "All" sort_by leads) leads.
Proof.
  unfold filtered_leads. split; [apply sort_leads_perm|]. split.
  - intros l Hl.
    apply (Permutation_in _ (sort_leads_perm sort_by _)) in Hl.
    eapply filter_by_subreddit_sub, filter_by_score_sub, Hl.
  - apply sort_leads_perm.
Qed.

Lemma Sorted_weaken {A} (R R' : A -> A -> Prop) l :
  (forall a b, R a b -> R' a b) -> Sorted R l -> Sorted R' l.
Proof.
  intros Himp. induction 1 as [|x l _ IH Hhd]; constructor; [exact IH|].
  destruct Hhd; constructor. apply Himp. assumption.
Qed.

Lemma by_score_desc_total a b :
  by_score_desc a b = true \/ by_score_desc b a = true.
Proof.
  unfold by_score_desc.
  destruct (Z.leb_spec (Lead.relevance_score b) (Lead.relevance_score a));
    [left; reflexivity | right; apply Z.leb_le; lia].
Qed.

(** X24. The leads tab shows its leads in the order asked for: by score
    from the highest, by date from the latest, or by subreddit from the
    first in the order of the characters. *)
Theorem filtered_leads_sorted filter_subreddit filter_score leads :
  Sorted (fun a b => Lead.relevance_score b <= Lead.relevance_score a)
         (filtered_leads filter_subreddit filter_score "Relevance Score" leads)
  /\ Sorted (fun a b => String.leb (Lead.post_date b) (Lead.post_date a) = true)
            (filtered_leads filter_subreddit filter_score "Date" leads)
  /\ Sorted (fun a b => String.leb (Lead.subreddit a) (Lead.subreddit b) = true)
            (filtered_leads filter_subreddit filter_score "Subreddit" leads).
Proof.
  unfold filtered_leads.
  set (shown := filter_by_score filter_score
                  (filter_by_subreddit filter_subreddit leads)).
  change (sort_leads "Relevance Score" shown)
    with (PyText.sorted by_score_desc shown).
  change (sort_leads "Date" shown) with (PyText.sorted by_date_desc shown).
  change (sort_leads "Subreddit" shown) with (PyText.sorted by_subreddit shown).
  split; [|split].
  - eapply Sorted_weaken; [|apply sorted_sorted, by_score_desc_total].
    intros a b H. apply Z.leb_le. exact H.
  - apply (sorted_sorted by_date_desc). intros a b. apply String.leb_total.
  - apply (sorted_sorted by_subreddit). intros a b. apply String.leb_total.
Qed.

(** X25. The sort of the leads tab is stable: the leads of one score,
    of one date or of one subreddit are shown in the order they have in
    the session. *)
Theorem filtered_leads_stable filter_subreddit filter_score leads :
  let shown := filter_by_score filter_score
                 (filter_by_subreddit filter_subreddit leads) in
  (forall score,
      filter (fun l => Lead.relevance_score l =? score)
             (filtered_leads filter_subreddit filter_score "Relevance Score"
                             leads)
      = filter (fun l => Lead.relevance_score l =? score) shown)
  /\ (forall date,
         filter (fun l => String.eqb (Lead.post_date l) date)
                (filtered_leads filter_subreddit filter_score "Date" leads)
         = filter (fun l => String.eqb (Lead.post_date l) date) shown)
  /\ (forall name,
         filter (fun l => String.eqb (Lead.subreddit l) name)
                (filtered_leads filter_subreddit filter_score "Subreddit" leads)
         = filter (fun l => String.eqb (Lead.subreddit l) name) shown).
Proof.
  intros shown. unfold filtered_leads. fold shown.
  change (sort_leads "Relevance Score" shown)
    with (PyText.sorted by_score_desc shown).
  change (sort_leads "Date" shown) with (PyText.sorted by_date_desc shown).
  change (sort_leads "Subreddit" shown) with (PyText.sorted by_subreddit shown).
  split; [|split]; intros k; apply sorted_stable; intros a b Ha Hb.
  - apply Z.eqb_eq in Ha, Hb. unfold by_score_desc. apply Z.leb_le. lia.
  - apply String.eqb_eq in Ha, Hb. unfold by_date_desc.
    rewrite Ha, Hb. apply string_leb_refl.
  - apply String.eqb_eq in Ha, Hb. unfold by_subreddit.
    rewrite Ha, Hb. apply string_leb_refl.
Qed.

(** ** The all-posts tab *)

Lemma handler_runs env session cred subreddits keywords posts_per_subreddit
      min_relevance_score :
  complete_input cred subreddits keywords ->
  search_button_handler env session cred subreddits keywords
                        posts_per_subreddit min_relevance_score
  = (let s := track_leads_function env cred subreddits keywords
                posts_per_subreddit min_relevance_score in
     (mkSession (all_leads s) (all_posts_explored s) (stats s) true, events s)).
Proof.
  intros (H1 & H2 & H3 & H4 & H5 & Hs & Hk).
  unfold search_button_handler. cbn [forallb]. unfold nonempty.
  apply String.eqb_neq in H1, H2, H3, H4, H5.
  rewrite H1, H2, H3, H4, H5. cbn [negb andb].
  destruct subreddits; [contradiction|]. destruct keywords; [contradiction|].
  reflexivity.
Qed.

Lemma flags_of_records min_score records :
  Forall (record_ok min_score) records ->
  filter PostInfo.ai_analyzed records = filter PostInfo.matched_keywords records
  /\ forall r, In r (filter PostInfo.is_lead records) ->
               In r (filter PostInfo.ai_analyzed records).
Proof.
  intros Hok. split.
  - apply filter_ext_in. intros r Hr.
    rewrite Forall_forall in Hok. apply (Hok r Hr).
  - intros r Hr. apply filter_In in Hr as [Hin Hlead]. apply filter_In.
    split; [exact Hin|].
    rewrite Forall_forall in Hok.
    destruct (Hok r Hin) as (Han & _ & Hno & Hsc & _).
    destruct (Hsc Hlead) as (n & Hn).
    rewrite Han. destruct (PostInfo.matched_keywords r); [reflexivity|].
    rewrite (Hno eq_refl) in Hn. discriminate.
Qed.

(** X26. After a search with complete input the summary of the
    all-posts tab is coherent: as many posts matched a keyword as were
    analyzed, the posts that became leads are as many as the counter of
    leads says and at most as many as the leads of the session, and the
    posts listed are at most as many as the total of fetched posts. The
    filter on analyzed posts and the filter on keyword matches show the
    same posts, among which are those of the filter on leads. *)
Theorem all_posts_summary env cred subreddits keywords posts_per_subreddit
        min_relevance_score :
  complete_input cred subreddits keywords ->
  let session := session_after env cred subreddits keywords
                               posts_per_subreddit min_relevance_score in
  let all_posts := session_all_posts session in
  search_completed session = true /\
  keyword_matches all_posts = ai_analyzed all_posts /\
  leads_count all_posts = leads_found (search_stats session) /\
  leads_count all_posts <= Py.len (session_leads session) /\
  Py.len all_posts <= total_posts (search_stats session) /\
  filter_by_status "AI Analyzed" all_posts
  = filter_by_status "Keyword Match" all_posts /\
  (forall p, In p (filter_by_status "Leads Only" all_posts) ->
             In p (filter_by_status "AI Analyzed" all_posts)).
Proof.
  intros Hinput session all_posts. subst all_posts session.
  unfold session_after. rewrite (handler_runs _ _ _ _ _ _ _ Hinput).
  cbv zeta. cbn [fst session_all_posts session_leads search_stats
                 search_completed].
  set (s := track_leads_function env cred subreddits keywords
              posts_per_subreddit min_relevance_score).
  pose proof (run_lists_well_formed env cred subreddits keywords
                posts_per_subreddit min_relevance_score) as (_ & Hok & _).
  pose proof (flags_counted_run env cred subreddits keywords
                posts_per_subreddit min_relevance_score) as [Hfound Hle].
  pose proof (counters_bounds env cred subreddits keywords
                posts_per_subreddit min_relevance_score) as Hcount.
  fold s in Hok, Hfound, Hle, Hcount.
  destruct (flags_of_records _ _ Hok) as [Hsame Hsub].
  split; [reflexivity|]. unfold keyword_matches, ai_analyzed, leads_count.
  split; [rewrite Hsame; reflexivity|].
  split; [symmetry; exact Hfound|]. split; [exact Hle|].
  split; [apply Hcount|].
  split; [exact Hsame | exact Hsub].
Qed.

Lemma all_posts_summary_witness :
  let session := session_after (env_new [dashboard_post; untitled_post]
                                        AgentRaises)
                               sample_cred ["analytics"] ["bi dashboard"] 50 7 in
  leads_count (session_all_posts session) = 0 /\
  Py.len (session_leads session) = 1 /\
  Py.len (session_all_posts session) = 1 /\
  total_posts (search_stats session) = 2.
Proof.
  pose proof (all_posts_summary (env_new [dashboard_post; untitled_post]
                                         AgentRaises)
                sample_cred ["analytics"] ["bi dashboard"] 50 7) as H.
  cbv zeta in *.
  destruct H as (_ & _ & Hfound & _).
  - repeat split; discriminate.
  - split; [rewrite Hfound; reflexivity|].
    vm_compute. repeat split.
Defined.

(** ** A content API that honours limits *)

Lemma stage_posts_len answer acc bound :
  (forall l, answer = Some l -> Py.len l <= bound) ->
  0 <= bound ->
  Py.len (stage_posts answer acc) <= Py.len acc + bound.
Proof.
  intros Hans Hbound. destruct answer as [l|]; simpl; [|lia].
  specialize (Hans l eq_refl). rewrite len_app. unfold unique_posts, Py.len in *.
  pose proof (filter_length_le
                (fun p => negb (Py.mem (Post.id p) (map Post.id acc))) l).
  lia.
Qed.

(** X27. When the content API honours the limits it is given, the
    Collector never fetches more than the cap: for a positive cap its
    output is the whole list it has accumulated, nothing being cut. *)
Theorem no_truncation_when_limits_honoured env subreddit cap s :
  0 < cap ->
  honours_limit env subreddit ->
  fetch_posts env subreddit cap s
  = (Val (all_posts_from_subreddit (snd (fetch_posts env subreddit cap s))),
     snd (fetch_posts env subreddit cap s)).
Proof.
  intros Hcap Hhon.
  assert (Hslice : forall ps : list Post.t,
             Py.len ps <= cap -> Py.slice_to ps cap = ps).
  { intros ps Hps. unfold Py.slice_to, Py.len in *.
    destruct (Z.leb_spec 0 cap); [|lia]. apply firstn_all2. lia. }
  assert (Hmore : forall r st,
             Py.len (all_posts_from_subreddit st) <= cap ->
             Py.len (all_posts_from_subreddit
                       (snd (more_posts env r subreddit cap st))) <= cap).
  { intros r st Hst. rewrite more_posts_run.
    cbn [snd with_posts all_posts_from_subreddit].
    set (limit := Z.min (cap - Py.len (all_posts_from_subreddit st)) query_max).
    pose proof (stage_posts_len
                  (listing env (List.length (events st)) r subreddit limit)
                  (all_posts_from_subreddit st) (Z.max 0 limit)) as Hlen.
    assert (Hlimit : Z.max 0 limit <= cap - Py.len (all_posts_from_subreddit st))
      by (subst limit; lia).
    assert (Hstage : Py.len (stage_posts
                       (listing env (List.length (events st)) r subreddit limit)
                       (all_posts_from_subreddit st))
                     <= Py.len (all_posts_from_subreddit st) + Z.max 0 limit).
    { apply Hlen; [|lia]. intros l Hl. eapply Hhon. exact Hl. }
    lia. }
  rewrite fetch_posts_run. cbv zeta. cbn [snd].
  set (a1 := listing env _ New subreddit _).
  set (s1 := with_posts s _ _).
  assert (H1 : Py.len (all_posts_from_subreddit s1) <= cap).
  { subst s1. cbn [with_posts all_posts_from_subreddit].
    destruct a1 as [l|] eqn:Ha1; [|unfold Py.len; cbn; lia].
    subst a1. apply Hhon in Ha1. lia. }
  f_equal. f_equal. apply Hslice.
  destruct (cap >? query_max); cbn [andb]; [|exact H1].
  destruct (Py.len _ <? cap); auto.
Qed.

Lemma no_truncation_when_limits_honoured_witness :
  Py.len (all_posts_from_subreddit
            (snd (fetch_posts env_honest "analytics" 1500 init_st))) = 1500 /\
  fst (fetch_posts env_honest "analytics" 1500 init_st)
  = Val (all_posts_from_subreddit
           (snd (fetch_posts env_honest "analytics" 1500 init_st))).
Proof.
  split; [vm_compute; reflexivity|].
  rewrite (no_truncation_when_limits_honoured env_honest "analytics" 1500
             init_st) at 1.
  - reflexivity.
  - lia.
  - intros t r limit l Hl. unfold env_honest in Hl. cbn [listing] in Hl.
    assert (Hlen : (List.length l <= Z.to_nat limit)%nat).
    { replace l with (firstn (Z.to_nat limit)
                        match r with
                        | New => numbered "p" 0 1200
                        | Top => numbered "p" 900 1200
                        | Hot => numbered "p" 2000 1200
                        end) by congruence.
      apply firstn_le_length. }
    unfold Py.len. lia.
Defined.

(** ** The letter case of the keywords *)

Lemma keyword_in_same title content a b :
  same_lowercase a b -> keyword_in title content a = keyword_in title content b.
Proof. unfold same_lowercase, keyword_in. intros ->. reflexivity. Qed.

Lemma existsb_same title content kws kws' :
  Forall2 same_lowercase kws kws' ->
  existsb (keyword_in title content) kws = existsb (keyword_in title content) kws'.
Proof.
  induction 1 as [|a b kws kws' Hab _ IH]; [reflexivity|].
  cbn [existsb]. rewrite (keyword_in_same _ _ a b Hab), IH. reflexivity.
Qed.

Lemma filter_same title content kws kws' :
  Forall2 same_lowercase kws kws' ->
  Forall2 same_lowercase (filter (keyword_in title content) kws)
          (filter (keyword_in title content) kws').
Proof.
  induction 1 as [|a b kws kws' Hab _ IH]; [constructor|].
  cbn [filter]. rewrite (keyword_in_same _ _ a b Hab).
  destruct (keyword_in title content b); [constructor|]; assumption.
Qed.

Ltac same_goal Hk :=
  unfold same_but_spelling in *;
  cbn -[Py.str_take extract_score analysis_prompt keyword_in Z.add
        selftext_to post_url author_name];
  repeat match goal with
         | H : _ /\ _ |- _ => destruct H
         end;
  repeat match goal with
         | H : all_posts_explored _ = all_posts_explored _ |- _ => rewrite H
         | H : stats _ = stats _ |- _ => rewrite H
         | H : events _ = events _ |- _ => rewrite H
         end;
  rewrite ?map_app;
  repeat split; try reflexivity; try assumption;
  try (f_equal; assumption);
  try (apply Forall2_app; [assumption|];
       constructor; [|constructor]; apply filter_same, Hk).

(** One iteration over a post does the same under the two spellings. *)
Lemma analyze_post_same env min_score subreddit post kws kws' s s' :
  Forall2 same_lowercase kws kws' ->
  same_but_spelling s s' ->
  same_but_spelling (snd (analyze_post env kws min_score subreddit post s))
                    (snd (analyze_post env kws' min_score subreddit post s')).
Proof.
  intros Hk Hs.
  assert (Hev : events s = events s') by apply Hs.
  run_post.
  destruct (Post.title post) as [title|]; [|exact Hs].
  destruct (Post.permalink post) as [permalink|]; [|exact Hs].
  destruct (Post.author post) as [author|]; [|exact Hs].
  destruct (Post.created_utc post) as [created|]; [|exact Hs].
  destruct (strftime_date env created) as [date|]; [|exact Hs].
  destruct (Post.score post) as [score|]; [|exact Hs].
  destruct (Post.num_comments post) as [num_comments|]; [|exact Hs].
  cbn [post_info events all_leads all_posts_explored stats
       all_posts_from_subreddit total_posts posts_analyzed leads_found].
  rewrite (existsb_same _ _ kws kws' Hk).
  destruct (existsb _ kws'); [|same_goal Hk].
  cbn [post_info events all_leads all_posts_explored stats
       all_posts_from_subreddit total_posts posts_analyzed leads_found].
  destruct (prompt_content post) as [excerpt|]; [|same_goal Hk].
  cbn [post_info events all_leads all_posts_explored stats
       all_posts_from_subreddit total_posts posts_analyzed leads_found].
  rewrite Hev.
  destruct (agent_run env _ _) as [|[text|]]; [| |same_goal Hk].
  - same_goal Hk.
  - destruct (String.eqb text ""); [same_goal Hk|].
    cbn [post_info events all_leads all_posts_explored stats
         all_posts_from_subreddit total_posts posts_analyzed leads_found].
    destruct (extract_score min_score text >=? min_score); same_goal Hk.
Qed.

Lemma analyze_loop_same env min_score subreddit kws kws' ps :
  Forall2 same_lowercase kws kws' ->
  forall s s',
    same_but_spelling s s' ->
    same_but_spelling
      (snd (for_each ps (analyze_post env kws min_score subreddit) s))
      (snd (for_each ps (analyze_post env kws' min_score subreddit) s')).
Proof.
  intros Hk. induction ps as [|p ps IH]; intros s s' Hs; [exact Hs|].
  rewrite !for_each_cons by apply analyze_post_returns.
  apply IH, analyze_post_same; assumption.
Qed.

(** The Collector reads of the state its trace only. *)
Lemma more_posts_same env r subreddit cap st st' :
  all_posts_from_subreddit st = all_posts_from_subreddit st' ->
  events st = events st' ->
  all_posts_from_subreddit (snd (more_posts env r subreddit cap st))
  = all_posts_from_subreddit (snd (more_posts env r subreddit cap st')) /\
  events (snd (more_posts env r subreddit cap st))
  = events (snd (more_posts env r subreddit cap st')).
Proof.
  intros Hps Hev. rewrite !more_posts_run.
  cbn [snd with_posts all_posts_from_subreddit events].
  rewrite Hps, Hev. split; reflexivity.
Qed.

Lemma fetch_posts_same env subreddit cap s s' :
  events s = events s' ->
  fst (fetch_posts env subreddit cap s) = fst (fetch_posts env subreddit cap s')
  /\ events (snd (fetch_posts env subreddit cap s))
     = events (snd (fetch_posts env subreddit cap s')).
Proof.
  intros Hev. rewrite !fetch_posts_run. cbv zeta. cbn [fst snd]. rewrite Hev.
  set (a1 := listing env _ New subreddit _).
  set (s1 := with_posts s _ _). set (s1' := with_posts s' _ _).
  assert (H1 : all_posts_from_subreddit s1 = all_posts_from_subreddit s1' /\
               events s1 = events s1') by (split; reflexivity).
  destruct (cap >? query_max); cbn [andb].
  - destruct H1 as [Hp1 He1].
    destruct (more_posts_same env Top subreddit cap s1 s1' Hp1 He1)
      as [Hp2 He2].
    rewrite <- Hp2. destruct (Py.len _ <? cap).
    + destruct (more_posts_same env Hot subreddit cap _ _ Hp2 He2)
        as [Hp3 He3].
      rewrite Hp3, He3. split; reflexivity.
    + rewrite Hp2, He2. split; reflexivity.
  - destruct H1 as [-> ->]. split; reflexivity.
Qed.

Lemma search_subreddit_same env min_score cap subreddit kws kws' s s' :
  Forall2 same_lowercase kws kws' ->
  same_but_spelling s s' ->
  same_but_spelling (snd (search_subreddit env kws min_score cap subreddit s))
                    (snd (search_subreddit env kws' min_score cap subreddit s')).
Proof.
  intros Hk Hs.
  assert (Hev : events s = events s') by apply Hs.
  destruct (fetch_posts_same env subreddit cap s s' Hev) as [Hout Hevs].
  destruct (search_subreddit_run env kws min_score cap subreddit s)
    as [_ [[Hc ->] | [Ho (out & ps & evs & Hf & ->)]]];
    destruct (search_subreddit_run env kws' min_score cap subreddit s')
      as [_ [[Hc' ->] | [Ho' (out' & ps' & evs' & Hf' & ->)]]];
    try (rewrite Hev in *; congruence).
  - same_goal Hk.
  - rewrite Hf, Hf' in Hout, Hevs. cbn in Hout, Hevs.
    injection Hout as <-. subst evs'.
    apply analyze_loop_same; [exact Hk|]. same_goal Hk.
Qed.

(** X2. The letter case of the keywords does not matter to a run: with
    each keyword replaced by a spelling that lowercases to the same
    text, the run makes the same queries and the same calls of the
    agent, returns the same explored records and the same counters, and
    the same leads in the same order but for the spelling of their
    matched keywords, which is that of the list given. *)
Theorem keyword_case_irrelevant env cred subreddits kws kws' cap min_score :
  Forall2 same_lowercase kws kws' ->
  same_but_spelling
    (track_leads_function env cred subreddits kws cap min_score)
    (track_leads_function env cred subreddits kws' cap min_score).
Proof.
  intros Hk. unfold track_leads_function.
  assert (Hinit : same_but_spelling init_st init_st)
    by (repeat split; constructor).
  revert Hinit. generalize init_st at 1 3. generalize init_st.
  induction subreddits as [|subreddit rest IH]; intros s' s Hs; [exact Hs|].
  rewrite !for_each_cons by apply search_subreddit_run.
  apply IH, search_subreddit_same; assumption.
Qed.

Lemma keyword_case_irrelevant_witness :
  same_but_spelling
    (sample_run [dashboard_post] AgentRaises ["bi dashboard"; "kpi"] 7)
    (sample_run [dashboard_post] AgentRaises ["BI Dashboard"; "KPI"] 7).
Proof.
  apply (keyword_case_irrelevant (env_new [dashboard_post] AgentRaises)
           sample_cred ["analytics"] ["bi dashboard"; "kpi"]
           ["BI Dashboard"; "KPI"] 10 7).
  repeat constructor.
Defined.

(** ** Scores of many digits *)

Lemma int_too_long s :
  (Py.max_str_digits < String.length s)%nat -> Py.int s = None.
Proof.
  intros Hlong. unfold Py.int. destruct s as [|c s]; [reflexivity|].
  destruct (Nat.leb_spec (String.length (String c s)) Py.max_str_digits);
    [lia | reflexivity].
Qed.

(** A labelled line of more than 4300 digits leaves the default; one of
    4300 is read. *)
Example extract_score_digit_cap :
  extract_score 7 ("Score: " ++ repeat_char "1" 4301) = 7 /\
  7 < extract_score 7 ("Score: " ++ repeat_char "1" 4300).
Proof. split; vm_compute; reflexivity. Qed.
